(** * Credentials API: role hierarchy, admin gate and admin controller

    A shallow embedding of

    - [src/core/middleware/adminAuth.ts]      (module [AdminAuth]),
    - [src/controllers/adminController.ts]    (module [AdminController]),
    - the initial database schema             (module [Schema]),

    together with the properties of the authorization gate, of the
    credential and account updates and of the verification-code table. *)

From Stdlib Require Import ZArith QArith Lqa Lia List String Ascii Bool.
Import ListNotations.

Local Open Scope string_scope.
Local Open Scope Z_scope.

(** ** JavaScript values, as far as the role checks look at them *)

Module Js.

(** A JavaScript number: a finite value (every double is a rational), the
    two infinities, or NaN. *)
Inductive Number :=
| Fin (q : Q)
| PosInf
| NegInf
| NaN.

Definition Qlt_bool (x y : Q) : bool := negb (Qle_bool y x).

(** [a < b] on numbers; any comparison with NaN is false. *)
Definition num_lt (a b : Number) : bool :=
  match a, b with
  | NaN, _ | _, NaN => false
  | Fin x, Fin y => Qlt_bool x y
  | Fin _, PosInf => true
  | Fin _, NegInf => false
  | PosInf, _ => false
  | NegInf, NegInf => false
  | NegInf, _ => true
  end.

(** ToBoolean on a number: 0 (either sign) and NaN are falsy. *)
Definition num_truthy (n : Number) : bool :=
  match n with
  | Fin q => negb (Qeq_bool q 0)
  | PosInf | NegInf => true
  | NaN => false
  end.

(** A value read from a JSON document (a token's claims, a request body),
    or [undefined] for an absent property.  An array or an object is kept
    as [VObject key], [key] being the string that ToString gives for it,
    which is all a property access [table[value]] uses of it; an object
    for which ToString throws is not represented. *)
Inductive Value :=
| VUndefined
| VNull
| VBool (b : bool)
| VNumber (n : Number)
| VString (s : string)
| VObject (key : string).

(** ToBoolean. *)
Definition truthy (v : Value) : bool :=
  match v with
  | VUndefined | VNull => false
  | VBool b => b
  | VNumber n => num_truthy n
  | VString s => negb (String.eqb s "")
  | VObject _ => true
  end.

(** What a lookup in the role table yields: the number stored under an own
    property, [undefined] for a key found nowhere, or a member inherited
    from [Object.prototype] (a built-in function, or the prototype object
    itself under [__proto__]). *)
Inductive Rank :=
| RNumber (n : Number)
| RUndefined
| RInherited (key : string).

(** ToNumber: [undefined] gives NaN, and so does an inherited member, whose
    primitive value is a string that is no numeric literal. *)
Definition to_number (r : Rank) : Number :=
  match r with
  | RNumber n => n
  | RUndefined => NaN
  | RInherited _ => NaN
  end.

Definition rank_truthy (r : Rank) : bool :=
  match r with
  | RNumber n => num_truthy n
  | RUndefined => false
  | RInherited _ => true
  end.

(** The primitive value of an inherited member (ToPrimitive): the source
    text of a built-in function, or that of the prototype object under
    [__proto__].  The function under [constructor] is named [Object]. *)
Definition primitive (key : string) : string :=
  if String.eqb key "__proto__" then "[object Object]"
  else "function "
       ++ (if String.eqb key "constructor" then "Object" else key)
       ++ "() { [native code] }".

(** [a < b] and [a > b] on two ranks.  Two inherited members are compared
    by their primitive values, which are strings, code unit by code unit;
    in every other case both operands go through ToNumber. *)
Definition lt (a b : Rank) : bool :=
  match a, b with
  | RInherited x, RInherited y => String.ltb (primitive x) (primitive y)
  | _, _ => num_lt (to_number a) (to_number b)
  end.

Definition gt (a b : Rank) : bool := lt b a.

(** The property names every plain object inherits from
    [Object.prototype]. *)
Definition Object_prototype : list string :=
  [ "constructor"; "__defineGetter__"; "__defineSetter__"; "hasOwnProperty";
    "__lookupGetter__"; "__lookupSetter__"; "isPrototypeOf";
    "propertyIsEnumerable"; "toString"; "valueOf"; "__proto__";
    "toLocaleString" ].

(** An object literal whose properties hold integers. *)
Definition Object := list (string * Z).

Fixpoint own (o : Object) (k : string) : option Z :=
  match o with
  | [] => None
  | (k', v) :: o' => if String.eqb k' k then Some v else own o' k
  end.

(** [o[k]]: own properties first, then the prototype. *)
Definition get (o : Object) (k : string) : Rank :=
  match own o k with
  | Some v => RNumber (Fin (inject_Z v))
  | None => if existsb (String.eqb k) Object_prototype
            then RInherited k else RUndefined
  end.

(** [typeof role === 'number' ? role : o[role]].  The property key of a
    value that is not a number is its ToString. *)
Definition resolve (o : Object) (role : Value) : Rank :=
  match role with
  | VNumber n => RNumber n
  | VUndefined => get o "undefined"
  | VNull => get o "null"
  | VBool b => get o (if b then "true" else "false")
  | VString s => get o s
  | VObject key => get o key
  end.

End Js.

Import Js.

(** ** The database: tables of the initial schema *)

Module Schema.

(** A row of [Account].  Columns declared NOT NULL hold a value, the
    others an option; timestamps are integers. *)
Record Account := {
  Account_ID : Z;
  FirstName : string;
  LastName : string;
  Username : string;
  Email : string;
  Email_Verified : option bool;
  Phone : string;
  Phone_Verified : option bool;
  Account_Role : Z;
  Account_Status : option string;
  Created_At : option Z;
  Updated_At : option Z
}.

(** A row of [Account_Credential]; [Cred_Account_ID] is its [Account_ID]
    column. *)
Record Account_Credential := {
  Credential_ID : Z;
  Cred_Account_ID : Z;
  Salted_Hash : string;
  Salt : option string
}.

Inductive Credential_column := cCredential_ID | cAccount_ID | cSalted_Hash | cSalt.

Definition Credential_column_eqb (a b : Credential_column) : bool :=
  match a, b with
  | cCredential_ID, cCredential_ID | cAccount_ID, cAccount_ID
  | cSalted_Hash, cSalted_Hash | cSalt, cSalt => true
  | _, _ => false
  end.

(** The unique indexes [CREATE TABLE Account_Credential] declares: the
    primary key on [Credential_ID], and nothing else ([Account_ID] is NOT
    NULL and a foreign key, neither of which makes an index). *)
Definition Account_Credential_unique : list (list Credential_column) :=
  [ [cCredential_ID] ].

(** A row of [verification_codes]. *)
Record verification_code := {
  code_id : Z;
  account_id : Z;
  code_type : string;
  code : string;
  expires_at : Z;
  attempts : option Z;
  created_at : option Z;
  used_at : option Z
}.

Record Database := {
  Account_rows : list Account;
  Credential_rows : list Account_Credential;
  verification_rows : list verification_code
}.

(** A string is the UTF-8 encoding of a text: a character is a byte that
    is no continuation byte, followed by its continuation bytes. *)
Definition is_continuation (c : ascii) : bool :=
  (128 <=? nat_of_ascii c)%nat && (nat_of_ascii c <? 192)%nat.

(** The number of characters, which is what [VARCHAR(n)] bounds. *)
Fixpoint char_length (s : string) : nat :=
  match s with
  | EmptyString => 0%nat
  | String c s' =>
    ((if is_continuation c then 0 else 1) + char_length s')%nat
  end.

(** The first [n] characters, and what follows them. *)
Fixpoint take_chars (n : nat) (s : string) : string :=
  match s with
  | EmptyString => EmptyString
  | String c s' =>
    if is_continuation c then String c (take_chars n s')
    else match n with
         | O => EmptyString
         | S m => String c (take_chars m s')
         end
  end.

Fixpoint drop_chars (n : nat) (s : string) : string :=
  match s with
  | EmptyString => EmptyString
  | String c s' =>
    if is_continuation c then drop_chars n s'
    else match n with
         | O => s
         | S m => drop_chars m s'
         end
  end.

(** The character U+0000, which no text value may hold. *)
Fixpoint has_nul (s : string) : bool :=
  match s with
  | EmptyString => false
  | String c s' => Ascii.eqb c Ascii.zero || has_nul s'
  end.

Fixpoint all_spaces (s : string) : bool :=
  match s with
  | EmptyString => true
  | String c s' => Ascii.eqb c " "%char && all_spaces s'
  end.

(** A text of at most [n] characters. *)
Definition fits (n : nat) (s : string) : bool :=
  negb (has_nul s) && (char_length s <=? n)%nat.

(** A string bound to a [VARCHAR(n)] column: a string that holds U+0000
    is an error; so is one of more than [n] characters, unless all the
    excess characters are spaces, which are then cut off. *)
Definition varchar (n : nat) (s : string) : option string :=
  if fits n s then Some s
  else if negb (has_nul s) && all_spaces (drop_chars n s)
       then Some (take_chars n s) else None.

Definition INT_MIN : Z := - 2 ^ 31.
Definition INT_MAX : Z := 2 ^ 31 - 1.
Definition in_INT (z : Z) : bool := (INT_MIN <=? z) && (z <=? INT_MAX).

(** [UPDATE t SET ... WHERE p]: the new rows and the row count. *)
Definition update_where {A : Type} (p : A -> bool) (f : A -> A)
    (rows : list A) : list A * nat :=
  (map (fun r => if p r then f r else r) rows, List.length (filter p rows)).

(** A unique index named by [ON CONFLICT (columns)] must exist, or the
    statement is rejected whatever the table holds. *)
Fixpoint columns_eqb (a b : list Credential_column) : bool :=
  match a, b with
  | [], [] => true
  | x :: a', y :: b' => Credential_column_eqb x y && columns_eqb a' b'
  | _, _ => false
  end.

Definition infer_arbiter (indexes : list (list Credential_column))
    (target : list Credential_column) : bool :=
  existsb (columns_eqb target) indexes.

(** [INSERT INTO Account_Credential (Account_ID, Salted_Hash, Salt)
     VALUES (aid, hash, salt)
     ON CONFLICT (Account_ID) DO UPDATE SET Salted_Hash = hash, Salt = salt]
    on a table with the unique indexes [indexes]; [nextval] is what the
    sequence of [Credential_ID] hands out.  [None] is an error. *)
Definition INSERT_Credential_ON_CONFLICT
    (indexes : list (list Credential_column)) (nextval : Z)
    (accounts : list Account) (aid : Z) (hash salt : string)
    (rows : list Account_Credential) : option (list Account_Credential) :=
  if negb (infer_arbiter indexes [cAccount_ID]) then None
  else
    match varchar 255 hash, varchar 255 salt with
    | Some h, Some s =>
      if existsb (fun r => Cred_Account_ID r =? aid) rows then
        Some (map (fun r =>
                     if Cred_Account_ID r =? aid
                     then {| Credential_ID := Credential_ID r;
                             Cred_Account_ID := Cred_Account_ID r;
                             Salted_Hash := h;
                             Salt := Some s |}
                     else r) rows)
      else if existsb (fun r => Credential_ID r =? nextval) rows then None
      else if negb (existsb (fun a => Account_ID a =? aid) accounts) then None
      else Some (rows ++ [ {| Credential_ID := nextval;
                              Cred_Account_ID := aid;
                              Salted_Hash := h;
                              Salt := Some s |} ])%list
    | _, _ => None
    end.

End Schema.

Import Schema.

(** ** Requests and responses *)

(** The five keys of the role table ([keyof typeof ROLE_HIERARCHY]). *)
Inductive RoleName := User | Moderator | Admin | SuperAdmin | Owner.

Definition role_key (r : RoleName) : string :=
  match r with
  | User => "User"
  | Moderator => "Moderator"
  | Admin => "Admin"
  | SuperAdmin => "SuperAdmin"
  | Owner => "Owner"
  end.

(** The rank the documentation of both role tables gives to each role. *)
Definition role_rank (r : RoleName) : Z :=
  match r with
  | User => 1
  | Moderator => 2
  | Admin => 3
  | SuperAdmin => 4
  | Owner => 5
  end.

(** The claims of a verified token; only [role] is read here. *)
Record Claims := { role : Value }.

(** The JSON body of an admin request.  The five text fields are a string
    or absent; [b_role] and [password] are whatever JSON value the caller
    sent. *)
Record Body := {
  firstname : option string;
  lastname : option string;
  email : option string;
  username : option string;
  phone : option string;
  b_role : Value;
  password : Value
}.

Record Request := {
  claims : option Claims;
  id : string;              (* req.params.id *)
  body : Body
}.

(** What a handler sends: [sendError(res, status, message)] or
    [sendSuccess(res, {message, ...})] with the rows it returns. *)
Inductive Response :=
| sendError (status : Z) (message : string)
| sendSuccess (message : string) (rows : list Account).

(** A middleware either answers or calls [next()]. *)
Inductive Outcome :=
| next
| answer (r : Response).

Definition Handler := Request -> Database -> Response * Database.

(** [router.METHOD(path, middleware, handler)]: the handler runs only when
    the middleware calls [next()]. *)
Definition route (mw : Request -> Outcome) (h : Handler) : Handler :=
  fun req db =>
    match mw req with
    | next => h req db
    | answer r => (r, db)
    end.

(** ** src/core/middleware/adminAuth.ts *)

Module AdminAuth.

Definition ROLE_HIERARCHY : Js.Object :=
  [ ("User", 1); ("Moderator", 2); ("Admin", 3); ("SuperAdmin", 4);
    ("Owner", 5) ].

(** Ensure user has minimum required role.  The [catch], which answers
    500 "Authorization check failed", is reached by a role claim whose
    conversion to a property key throws (an object with an own [toString]
    that is no function); such an object is not among the values of
    [Js.Value], so the [catch] has no case here. *)
Definition requireRole (minRole : RoleName) (req : Request) : Outcome :=
  match claims req with
  | None => answer (sendError 401 "Missing authentication")
  | Some c =>
    if negb (truthy (role c)) then
      answer (sendError 401 "Missing authentication")
    else
      let userRole := role c in
      let userRank := resolve ROLE_HIERARCHY userRole in
      let minRank := get ROLE_HIERARCHY (role_key minRole) in
      if negb (rank_truthy userRank) || Js.lt userRank minRank then
        answer (sendError 403 "Access denied: insufficient privileges")
      else next
  end.

Definition requireAdmin : Request -> Outcome := requireRole Admin.
Definition requireOwner : Request -> Outcome := requireRole Owner.

End AdminAuth.

(** ** src/controllers/adminController.ts *)

Module AdminController.

Definition ROLE_HIERARCHY : Js.Object :=
  [ ("User", 1); ("Moderator", 2); ("Admin", 3); ("SuperAdmin", 4);
    ("Owner", 5) ].

(** A JavaScript number bound to an INT parameter: its decimal text is
    accepted when it is an integer of the INT range. *)
Definition int4_of_number (n : Number) : option Z :=
  match n with
  | Fin q =>
    let r := Qred q in
    if Pos.eqb (Qden r) 1 && in_INT (Qnum r) then Some (Qnum r) else None
  | PosInf | NegInf | NaN => None
  end.

(** A resolved rank bound to an INT parameter: [undefined] is sent as NULL
    ([Some None]); an inherited member is sent as text that is no integer
    ([None], an error). *)
Definition int4_param (r : Rank) : option (option Z) :=
  match r with
  | RNumber n => option_map Some (int4_of_number n)
  | RUndefined => Some None
  | RInherited _ => None
  end.

Definition set_Account_Rows (db : Database) (rows : list Account) : Database :=
  {| Account_rows := rows;
     Credential_rows := Credential_rows db;
     verification_rows := verification_rows db |}.

Definition set_Credential_Rows (db : Database)
    (rows : list Account_Credential) : Database :=
  {| Account_rows := Account_rows db;
     Credential_rows := rows;
     verification_rows := verification_rows db |}.

Section Handlers.

(** The surroundings of a handler: how PostgreSQL reads the text of a
    route parameter as an INT ([None]: it rejects the text), the hashing
    collaborator applied to the password of the body as it came ([None]:
    it throws; otherwise salt and hash), the time [NOW()] returns, and the
    value a SERIAL column's sequence hands to an INSERT. *)
Variable int4in : string -> option Z.
Variable generateSaltedHash : Value -> option (string * string).
Variable now : Z.
Variable nextval : Z.

(** [INSERT INTO Account (FirstName, LastName, Email, Username, Phone,
     Account_Role, Account_Status) VALUES ($1, ..., $6, 'active')
     RETURNING ...].  [None] is an error: a parameter that is no INT, a
    NULL in a NOT NULL column, a string too long, or a duplicate of a
    unique column. *)
Definition INSERT_Account (fn ln em un ph : option string) (rank : Rank)
    (rows : list Account) : option (Account * list Account) :=
  match int4_param rank with
  | Some (Some r) =>
    match fn, ln, em, un, ph with
    | Some fn, Some ln, Some em, Some un, Some ph =>
      match varchar 255 fn, varchar 255 ln, varchar 255 em,
            varchar 255 un, varchar 15 ph with
      | Some fn, Some ln, Some em, Some un, Some ph =>
        let row := {| Account_ID := nextval;
                      FirstName := fn;
                      LastName := ln;
                      Username := un;
                      Email := em;
                      Email_Verified := Some false;
                      Phone := ph;
                      Phone_Verified := Some false;
                      Account_Role := r;
                      Account_Status := Some "active";
                      Created_At := Some now;
                      Updated_At := Some now |} in
        if existsb (fun a => (Account_ID a =? nextval)
                             || String.eqb (Username a) un
                             || String.eqb (Email a) em
                             || String.eqb (Phone a) ph) rows
        then None
        else Some (row, (rows ++ [row])%list)
      | _, _, _, _, _ => None
      end
    | _, _, _, _, _ => None
    end
  | _ => None
  end.

(** The rest of [createUser] once the privilege check has passed. *)
Definition createUser_insert (targetRank : Rank) : Handler :=
  fun req db =>
    let b := body req in
    match INSERT_Account (firstname b) (lastname b) (email b) (username b)
                         (phone b) targetRank (Account_rows db) with
    | Some (row, rows) =>
      (sendSuccess "User created successfully" [row], set_Account_Rows db rows)
    | None => (sendError 500 "Failed to create user", db)
    end.

(** Create new user (admin-level).  Reading [req.claims.role] throws when
    the request has no claims, and so does an INSERT that fails; the
    [catch] answers 500. *)
Definition createUser : Handler :=
  fun req db =>
    match claims req with
    | None => (sendError 500 "Failed to create user", db)
    | Some c =>
      let creatorRole := role c in
      let creatorRank := resolve ROLE_HIERARCHY creatorRole in
      let targetRank := resolve ROLE_HIERARCHY (b_role (body req)) in
      if Js.gt targetRank creatorRank then
        (sendError 403 "You cannot create a user with a higher role than yours",
         db)
      else createUser_insert targetRank req db
    end.

Definition soft_delete (a : Account) : Account :=
  {| Account_ID := Account_ID a;
     FirstName := FirstName a;
     LastName := LastName a;
     Username := Username a;
     Email := Email a;
     Email_Verified := Email_Verified a;
     Phone := Phone a;
     Phone_Verified := Phone_Verified a;
     Account_Role := Account_Role a;
     Account_Status := Some "inactive";
     Created_At := Created_At a;
     Updated_At := Some now |}.

(** Soft delete a user (set status to inactive):
    [UPDATE Account SET Account_Status = 'inactive', Updated_At = NOW()
     WHERE Account_ID = $1 RETURNING Account_ID], then 404 when
    [rowCount] is 0. *)
Definition deleteUser : Handler :=
  fun req db =>
    match int4in (id req) with
    | None => (sendError 500 "Failed to delete user", db)
    | Some n =>
      let (rows, rowCount) :=
        update_where (fun a => Account_ID a =? n) soft_delete
                     (Account_rows db) in
      let db' := set_Account_Rows db rows in
      if (rowCount =? 0)%nat then (sendError 404 "User not found", db')
      else (sendSuccess "User deleted successfully" [], db')
    end.

(** Admin password reset: the password must be truthy, the account must
    exist ([SELECT Account_ID FROM Account WHERE Account_ID = $1]), then
    the new salt and hash are upserted.  Every exception is caught and
    answered 500. *)
Definition resetUserPassword : Handler :=
  fun req db =>
    let pw := password (body req) in
    if negb (truthy pw) then (sendError 400 "Password is required", db)
    else
      match int4in (id req) with
      | None => (sendError 500 "Failed to reset password", db)
      | Some n =>
        let userCheck := filter (fun a => Account_ID a =? n) (Account_rows db) in
        if (List.length userCheck =? 0)%nat then
          (sendError 404 "User not found", db)
        else
          match generateSaltedHash pw with
          | None => (sendError 500 "Failed to reset password", db)
          | Some (salt, hash) =>
            match INSERT_Credential_ON_CONFLICT Account_Credential_unique
                    nextval (Account_rows db) n hash salt
                    (Credential_rows db) with
            | None => (sendError 500 "Failed to reset password", db)
            | Some rows =>
              (sendSuccess "Password reset successfully" [],
               set_Credential_Rows db rows)
            end
          end
      end.

Definition set_role (r : Z) (a : Account) : Account :=
  {| Account_ID := Account_ID a;
     FirstName := FirstName a;
     LastName := LastName a;
     Username := Username a;
     Email := Email a;
     Email_Verified := Email_Verified a;
     Phone := Phone a;
     Phone_Verified := Phone_Verified a;
     Account_Role := r;
     Account_Status := Account_Status a;
     Created_At := Created_At a;
     Updated_At := Some now |}.

(** The rest of [changeUserRole] once the checks have passed:
    [UPDATE Account SET Account_Role = $1, Updated_At = NOW()
     WHERE Account_ID = $2 RETURNING ...]. *)
Definition changeUserRole_update (targetRank : Rank) : Handler :=
  fun req db =>
    match int4_param targetRank, int4in (id req) with
    | Some r, Some n =>
      let hit := filter (fun a => Account_ID a =? n) (Account_rows db) in
      match r, hit with
      | None, _ :: _ => (sendError 500 "Failed to change user role", db)
      | None, [] => (sendError 404 "User not found", db)
      | Some r, _ =>
        let (rows, rowCount) :=
          update_where (fun a => Account_ID a =? n) (set_role r)
                       (Account_rows db) in
        let db' := set_Account_Rows db rows in
        if (rowCount =? 0)%nat then (sendError 404 "User not found", db')
        else (sendSuccess "User role updated successfully"
                          (map (set_role r) hit), db')
      end
    | _, _ => (sendError 500 "Failed to change user role", db)
    end.

(** Change user's role.  Admin can only assign roles less than or equal
    to their own. *)
Definition changeUserRole : Handler :=
  fun req db =>
    match claims req with
    | None => (sendError 500 "Failed to change user role", db)
    | Some c =>
      let role_ := b_role (body req) in
      let adminRole := role c in
      if negb (truthy role_) then (sendError 400 "Role is required", db)
      else
        let adminRank := resolve ROLE_HIERARCHY adminRole in
        let targetRank := resolve ROLE_HIERARCHY role_ in
        if negb (rank_truthy targetRank)
           || Js.lt targetRank (RNumber (Fin (inject_Z 1)))
           || Js.gt targetRank (RNumber (Fin (inject_Z 5)))
        then (sendError 400 "Invalid role specified", db)
        else if Js.gt targetRank adminRank then
          (sendError 403 "You cannot assign a role higher than your own", db)
        else changeUserRole_update targetRank req db
    end.

End Handlers.

End AdminController.

(** ** The [verification_codes] table *)

Module VerificationCodes.

Definition is_digit (c : ascii) : bool :=
  (48 <=? nat_of_ascii c)%nat && (nat_of_ascii c <=? 57)%nat.

Fixpoint all_digits (s : string) : bool :=
  match s with
  | EmptyString => true
  | String c s' => is_digit c && all_digits s'
  end.

(** [CHECK (code_type IN ('email', 'phone'))]. *)
Definition code_type_check (t : string) : bool :=
  String.eqb t "email" || String.eqb t "phone".

(** [CONSTRAINT valid_code CHECK (LENGTH(code) = 6 AND code ~ '^[0-9]+$')]:
    six characters, at least one character, digits only. *)
Definition valid_code (c : string) : bool :=
  (String.length c =? 6)%nat && negb (String.eqb c "") && all_digits c.

(** Storing a record for account [aid] with the given type, secret and
    expiry: the two strings go through [VARCHAR(10)] and [VARCHAR(6)], the
    row must pass both CHECK constraints, its key must be new and its
    account must exist; the other columns take their defaults.  [None] is
    an error. *)
Definition INSERT_verification_code (nextval now : Z)
    (accounts : list Account) (aid : Z) (type secret : string) (expires : Z)
    (rows : list verification_code) : option (list verification_code) :=
  match varchar 10 type, varchar 6 secret with
  | Some t, Some c =>
    if negb (code_type_check t) || negb (valid_code c) then None
    else if existsb (fun r => code_id r =? nextval) rows then None
    else if negb (existsb (fun a => Account_ID a =? aid) accounts) then None
    else Some (rows ++ [ {| code_id := nextval;
                            account_id := aid;
                            code_type := t;
                            code := c;
                            expires_at := expires;
                            attempts := Some 0;
                            created_at := Some now;
                            used_at := None |} ])%list
  | _, _ => None
  end.

(** [SELECT ... WHERE code = secret]. *)
Definition lookup_by_secret (secret : string)
    (rows : list verification_code) : list verification_code :=
  filter (fun r => String.eqb (code r) secret) rows.

End VerificationCodes.

(** ** CodeStore: issuing a verification record *)

Module CodeStore.

Inductive Purpose := EmailVerify | PhoneVerify | PasswordReset.

Definition Purpose_eqb (a b : Purpose) : bool :=
  match a, b with
  | EmailVerify, EmailVerify | PhoneVerify, PhoneVerify
  | PasswordReset, PasswordReset => true
  | _, _ => false
  end.

Record VerificationRecord := {
  subjectId : Z;
  purpose : Purpose;
  secret : string;
  issuedAt : Z;
  expiresAt : Z;
  attempts : Z;
  consumedAt : option Z
}.

(** The records of one (subject, purpose) pair. *)
Definition same_key (sid : Z) (p : Purpose) (r : VerificationRecord) : bool :=
  (subjectId r =? sid) && Purpose_eqb (purpose r) p.

(** An active record at time [t]: unconsumed and unexpired (a record is
    expired once [t > expiresAt]). *)
Definition active (t : Z) (r : VerificationRecord) : bool :=
  match consumedAt r with
  | None => t <=? expiresAt r
  | Some _ => false
  end.

Definition active_for (t sid : Z) (p : Purpose)
    (store : list VerificationRecord) : list VerificationRecord :=
  filter (fun r => same_key sid p r && active t r) store.

(** Modelled from the spec: [CodeStore.issue], whose code (the verification
    controller and its queries) is not among the sources; only the table it
    writes to is.  At time [now] it overwrites any active record of
    (subjectId, purpose), then stores the new record with
    [expiresAt = now + ttl], [attempts = 0] and [consumedAt = null]. *)
Definition issue (now : Z) (sid : Z) (p : Purpose) (s : string) (ttl : Z)
    (store : list VerificationRecord)
    : VerificationRecord * list VerificationRecord :=
  let r := {| subjectId := sid;
              purpose := p;
              secret := s;
              issuedAt := now;
              expiresAt := now + ttl;
              attempts := 0;
              consumedAt := None |} in
  (r, r :: filter (fun x => negb (same_key sid p x && active now x)) store).

(** At most one active record per (subject, purpose) at time [t]. *)
Definition at_most_one_active (t : Z) (store : list VerificationRecord) : Prop :=
  forall sid p, (List.length (active_for t sid p store) <= 1)%nat.

(** A request to issue: time, subject, purpose, secret, time to live. *)
Definition Issue : Type := Z * Z * Purpose * string * Z.

Definition issue_time (i : Issue) : Z :=
  let '(now, _, _, _, _) := i in now.

(** The store after a history of issues, oldest first. *)
Fixpoint issue_all (history : list Issue) (store : list VerificationRecord)
    : list VerificationRecord :=
  match history with
  | [] => store
  | (now, sid, p, s, ttl) :: history' =>
    issue_all history' (snd (issue now sid p s ttl store))
  end.

End CodeStore.

(** ** Instances used in examples *)

Module Sample.

Fixpoint digits (s : string) (acc : Z) : option Z :=
  match s with
  | EmptyString => Some acc
  | String c s' =>
    if VerificationCodes.is_digit c
    then digits s' (10 * acc + (Z.of_nat (nat_of_ascii c) - 48))
    else None
  end.

(** An integer input conversion: decimal digits with an optional minus
    sign, within the INT range. *)
Definition int4in (s : string) : option Z :=
  let r := match s with
           | EmptyString => None
           | String "-" EmptyString => None
           | String "-" s' => option_map Z.opp (digits s' 0)
           | _ => digits s 0
           end in
  match r with
  | Some z => if in_INT z then Some z else None
  | None => None
  end.

(** A hashing collaborator that hashes a string and throws on any other
    value. *)
Definition generateSaltedHash (pw : Value) : option (string * string) :=
  match pw with
  | VString s => Some ("c2FsdA", "sha256:" ++ s)
  | _ => None
  end.

Definition alice : Account :=
  {| Account_ID := 1;
     FirstName := "Alice";
     LastName := "Liddell";
     Username := "alice";
     Email := "alice@example.org";
     Email_Verified := Some true;
     Phone := "2535550100";
     Phone_Verified := Some false;
     Account_Role := 1;
     Account_Status := Some "active";
     Created_At := Some 1000;
     Updated_At := Some 1000 |}.

Definition alice_credential : Account_Credential :=
  {| Credential_ID := 1;
     Cred_Account_ID := 1;
     Salted_Hash := "sha256:old";
     Salt := Some "b2xk" |}.

Definition db0 : Database :=
  {| Account_rows := [];
     Credential_rows := [];
     verification_rows := [] |}.

Definition db1 : Database :=
  {| Account_rows := [alice];
     Credential_rows := [alice_credential];
     verification_rows := [] |}.

Definition no_body : Body :=
  {| firstname := None; lastname := None; email := None; username := None;
     phone := None; b_role := VUndefined; password := VUndefined |}.

Definition new_user (r : Value) : Body :=
  {| firstname := Some "Bob";
     lastname := Some "Stone";
     email := Some "bob@example.org";
     username := Some "bob";
     phone := Some "2535550101";
     b_role := r;
     password := VUndefined |}.

Definition num (z : Z) : Value := VNumber (Fin (inject_Z z)).

(** The row [createUser] stores for [new_user] at time [t] under key [i]
    with role [r]. *)
Definition bob (i t r : Z) : Account :=
  {| Account_ID := i;
     FirstName := "Bob";
     LastName := "Stone";
     Username := "bob";
     Email := "bob@example.org";
     Email_Verified := Some false;
     Phone := "2535550101";
     Phone_Verified := Some false;
     Account_Role := r;
     Account_Status := Some "active";
     Created_At := Some t;
     Updated_At := Some t |}.

(** A request whose token carries [actor] as role. *)
Definition request (actor : Value) (i : string) (b : Body) : Request :=
  {| claims := Some {| role := actor |}; id := i; body := b |}.

(** Subject 42 with an active email code and an active phone code. *)
Definition email_code : CodeStore.VerificationRecord :=
  {| CodeStore.subjectId := 42;
     CodeStore.purpose := CodeStore.EmailVerify;
     CodeStore.secret := "111111";
     CodeStore.issuedAt := 0;
     CodeStore.expiresAt := 600;
     CodeStore.attempts := 0;
     CodeStore.consumedAt := None |}.

Definition phone_code : CodeStore.VerificationRecord :=
  {| CodeStore.subjectId := 42;
     CodeStore.purpose := CodeStore.PhoneVerify;
     CodeStore.secret := "222222";
     CodeStore.issuedAt := 50;
     CodeStore.expiresAt := 650;
     CodeStore.attempts := 1;
     CodeStore.consumedAt := None |}.

End Sample.

(** ** Roles that resolve to a rank *)

(** [v] resolves in table [o] to the integer [r]. *)
Definition resolves_to (o : Js.Object) (v : Value) (r : Z) : Prop :=
  exists q, resolve o v = RNumber (Fin q) /\ q == inject_Z r.

(** [v] resolves to one of the five ranks of the hierarchy. *)
Definition recognized (o : Js.Object) (v : Value) (r : Z) : Prop :=
  resolves_to o v r /\ 1 <= r <= 5.

(** The two forms in which a role of the hierarchy is written: its rank
    as a number, or its name. *)
Definition form (numeric : bool) (m : RoleName) : Value :=
  if numeric then VNumber (Fin (inject_Z (role_rank m)))
  else VString (role_key m).

(** A request by an actor of role [actor] for the target role [target]. *)
Definition role_request (actor target : Value) (i : string) (b : Body)
    : Request :=
  {| claims := Some {| role := actor |};
     id := i;
     body := {| firstname := firstname b;
                lastname := lastname b;
                email := email b;
                username := username b;
                phone := phone b;
                b_role := target;
                password := password b |} |}.

(** ** The answers of the gate and of the privilege checks *)

Definition denied : Response :=
  sendError 403 "Access denied: insufficient privileges".

Definition unauthenticated : Response :=
  sendError 401 "Missing authentication".

Definition forbidden_create : Response :=
  sendError 403 "You cannot create a user with a higher role than yours".

Definition forbidden_assign : Response :=
  sendError 403 "You cannot assign a role higher than your own".

(** [a'] is [a] soft-deleted at time [t]: status and update time are
    set, every other column is as it was. *)
Definition soft_deleted (t : Z) (a a' : Account) : Prop :=
  Account_Status a' = Some "inactive"
  /\ Updated_At a' = Some t
  /\ Account_ID a' = Account_ID a
  /\ FirstName a' = FirstName a
  /\ LastName a' = LastName a
  /\ Username a' = Username a
  /\ Email a' = Email a
  /\ Email_Verified a' = Email_Verified a
  /\ Phone a' = Phone a
  /\ Phone_Verified a' = Phone_Verified a
  /\ Account_Role a' = Account_Role a
  /\ Created_At a' = Created_At a.

(** The credential rows of an account. *)
Definition credentials_of (aid : Z) (rows : list Account_Credential)
    : list Account_Credential :=
  filter (fun r => Cred_Account_ID r =? aid) rows.

(** ** src/controllers/adminController.ts: the other handlers *)

Module AdminControllerRest.
Import AdminController.

(** What a handler that only reads sends: [sendError(res, status,
    message)], [sendSuccess(res, result.rows[0])] or
    [sendSuccess(res, {message, stats})]. *)
Inductive ReadResponse :=
| readError (status : Z) (message : string)
| user (row : Account)
| stats (message : string) (total_users active_users inactive_users : nat).

(** [Account_Status = s]; a NULL status equals nothing. *)
Definition status_is (s : string) (a : Account) : bool :=
  match Account_Status a with
  | Some x => String.eqb x s
  | None => false
  end.

(** Dashboard stats: [COUNT( * )], and the same with
    [FILTER (WHERE Account_Status = 'active')] and [... = 'inactive']. *)
Definition getDashboardStats (req : Request) (db : Database) : ReadResponse :=
  stats "Dashboard statistics fetched"
        (List.length (Account_rows db))
        (List.length (filter (status_is "active") (Account_rows db)))
        (List.length (filter (status_is "inactive") (Account_rows db))).

(** A string or NULL bound to a [VARCHAR(n)] column. *)
Definition varchar_param (n : nat) (v : option string)
    : option (option string) :=
  match v with
  | None => Some None
  | Some s => option_map Some (varchar n s)
  end.

(** [SELECT count( * )] of the rows of [rows] whose column [col] is [v]. *)
Definition occurrences (col : Account -> string) (v : string)
    (rows : list Account) : nat :=
  List.length (filter (fun a => String.eqb (col a) v) rows).

Section Handlers.

Variable int4in : string -> option Z.
Variable now : Z.

(** Get single user by ID:
    [SELECT ... FROM Account WHERE Account_ID = $1], 404 when [rowCount]
    is 0, else the first row. *)
Definition getUserById (req : Request) (db : Database) : ReadResponse :=
  match int4in (id req) with
  | None => readError 500 "Failed to get user details"
  | Some n =>
    match filter (fun a => Account_ID a =? n) (Account_rows db) with
    | [] => readError 404 "User not found"
    | a :: _ => user a
    end
  end.

Definition set_profile (fn ln em un ph : string) (r : Z) (a : Account)
    : Account :=
  {| Account_ID := Account_ID a;
     FirstName := fn;
     LastName := ln;
     Username := un;
     Email := em;
     Email_Verified := Email_Verified a;
     Phone := ph;
     Phone_Verified := Phone_Verified a;
     Account_Role := r;
     Account_Status := Account_Status a;
     Created_At := Created_At a;
     Updated_At := Some now |}.

(** [UPDATE Account SET FirstName = $1, LastName = $2, Email = $3,
     Username = $4, Phone = $5, Account_Role = $6, Updated_At = NOW()
     WHERE Account_ID = $7 RETURNING ...]: the returned rows and the new
    table.  A parameter that is no INT or a string too long is an error
    whatever the table holds; a NULL in a NOT NULL column and a duplicate
    of a unique column are errors of the rows that are updated. *)
Definition UPDATE_Account (fn ln em un ph : option string) (rank : Rank)
    (i : string) (rows : list Account)
    : option (list Account * list Account) :=
  match int4_param rank, int4in i,
        varchar_param 255 fn, varchar_param 255 ln, varchar_param 255 em,
        varchar_param 255 un, varchar_param 15 ph with
  | Some r, Some n, Some fn, Some ln, Some em, Some un, Some ph =>
    match filter (fun a => Account_ID a =? n) rows with
    | [] => Some ([], rows)
    | hit =>
      match fn, ln, em, un, ph, r with
      | Some fn, Some ln, Some em, Some un, Some ph, Some r =>
        let rows' :=
          map (fun a => if Account_ID a =? n
                        then set_profile fn ln em un ph r a else a) rows in
        if (occurrences Username un rows' =? 1)%nat
           && (occurrences Email em rows' =? 1)%nat
           && (occurrences Phone ph rows' =? 1)%nat
        then Some (map (set_profile fn ln em un ph r) hit, rows')
        else None
      | _, _, _, _, _, _ => None
      end
    end
  | _, _, _, _, _, _, _ => None
  end.

(** Update user info.  The role is resolved as in [createUser]; no rank
    is compared. *)
Definition updateUser : Handler :=
  fun req db =>
    let b := body req in
    let roleValue := resolve ROLE_HIERARCHY (b_role b) in
    match UPDATE_Account (firstname b) (lastname b) (email b) (username b)
                         (phone b) roleValue (id req) (Account_rows db) with
    | None => (sendError 500 "Failed to update user", db)
    | Some (returned, rows) =>
      let db' := set_Account_Rows db rows in
      if (List.length returned =? 0)%nat
      then (sendError 404 "User not found", db')
      else (sendSuccess "User updated successfully" (firstn 1 returned), db')
    end.

End Handlers.

End AdminControllerRest.

(** ** src/core/utilities/envConfig.ts *)

Module EnvConfig.

(** [process.env]: the variables that are set, the latest binding of a
    name first. *)
Definition Env := list (string * string).

Fixpoint lookup (env : Env) (key : string) : option string :=
  match env with
  | [] => None
  | (k, v) :: env' => if String.eqb k key then Some v else lookup env' key
  end.

(** [process.env[key] = value]. *)
Definition set (key value : string) (env : Env) : Env := (key, value) :: env.

(** [!!process.env[key]] for a name that is no inherited member: set, and
    not to the empty string. *)
Definition present (env : Env) (key : string) : bool :=
  match lookup env key with
  | Some v => negb (String.eqb v "")
  | None => false
  end.

Definition requiredEnvVars : list string :=
  [ "JWT_SECRET"; "DATABASE_URL"; "EMAIL_USER"; "EMAIL_PASSWORD" ].

Definition optionalEnvVars : list (string * string) :=
  [ ("PORT", "8000");
    ("NODE_ENV", "development");
    ("EMAIL_SERVICE", "gmail");
    ("EMAIL_FROM", "Auth² Service <noreply@auth2.com>");
    ("SEND_EMAILS", "false");
    ("SEND_SMS_EMAILS", "false");
    ("APP_BASE_URL", "http://localhost:8000");
    ("DEFAULT_SMS_CARRIER", "att");
    ("JWT_EXPIRY", "14d") ].

(** [list.join(sep)]. *)
Fixpoint join (sep : string) (l : list string) : string :=
  match l with
  | [] => ""
  | [x] => x
  | x :: l' => x ++ sep ++ join sep l'
  end.

(** The required variables that are not present, in the order they are
    declared. *)
Definition missing (env : Env) : list string :=
  filter (fun key => negb (present env key)) requiredEnvVars.

(** One step of the [forEach] over the optional variables. *)
Definition set_default (env : Env) (entry : string * string) : Env :=
  let (key, defaultValue) := entry in
  if negb (present env key) then set key defaultValue env else env.

(** Validate that all required environment variables are present, then
    set defaults for the optional ones: the message of the error thrown,
    or the environment left behind.  What is written to the console is
    left out. *)
Definition validateEnv (env : Env) : string + Env :=
  if (0 <? List.length (missing env))%nat then
    inl ("Missing required environment variables: " ++ join ", " (missing env))
  else inr (fold_left set_default optionalEnvVars env).

(** What [getEnvVar] does: return a string, return a member that
    [process.env] inherits from [Object.prototype] (for a [key] that names
    one and is not set), or throw. *)
Inductive EnvVar :=
| returned (value : string)
| inherited (key : string)
| thrown (message : string).

(** Get environment variable: [process.env[key] || defaultValue], and an
    error when that is falsy. *)
Definition getEnvVar (env : Env) (key : string) (defaultValue : option string)
    : EnvVar :=
  let fallback :=
    match defaultValue with
    | Some d =>
      if negb (String.eqb d "") then returned d
      else thrown ("Environment variable " ++ key
                   ++ " is not set and no default provided")
    | None => thrown ("Environment variable " ++ key
                      ++ " is not set and no default provided")
    end in
  match lookup env key with
  | Some v => if negb (String.eqb v "") then returned v else fallback
  | None =>
    if existsb (String.eqb key) Object_prototype then inherited key
    else fallback
  end.

(** [process.env.NODE_ENV === 'production']. *)
Definition isProduction (env : Env) : bool :=
  match lookup env "NODE_ENV" with
  | Some v => String.eqb v "production"
  | None => false
  end.

(** [process.env.NODE_ENV === 'development' || !process.env.NODE_ENV]. *)
Definition isDevelopment (env : Env) : bool :=
  match lookup env "NODE_ENV" with
  | Some v => String.eqb v "development" || negb (present env "NODE_ENV")
  | None => true
  end.

(** [process.env.NODE_ENV === 'test']. *)
Definition isTest (env : Env) : bool :=
  match lookup env "NODE_ENV" with
  | Some v => String.eqb v "test"
  | None => false
  end.

End EnvConfig.

(** The columns of [Account] declared PRIMARY KEY or UNIQUE hold no value
    twice. *)
Definition Account_unique (rows : list Account) : Prop :=
  NoDup (map Account_ID rows)
  /\ NoDup (map Username rows)
  /\ NoDup (map Email rows)
  /\ NoDup (map Phone rows).

(** * Properties *)

(** ** Numbers and the role table *)

Lemma Qlt_bool_lt (x y : Q) : Qlt_bool x y = true <-> (x < y)%Q.
Proof.
  unfold Qlt_bool. rewrite negb_true_iff. split.
  - intros H. apply Qnot_le_lt. intros Hle.
    apply Qle_bool_iff in Hle. congruence.
  - intros H. destruct (Qle_bool y x) eqn:E; [|reflexivity].
    apply Qle_bool_iff in E. exfalso. apply (Qlt_not_le _ _ H E).
Qed.

(** Comparing two finite numbers that stand for integers is comparing the
    integers. *)
Lemma num_lt_integers (p q : Q) (a b : Z) :
  (p == inject_Z a)%Q -> (q == inject_Z b)%Q ->
  num_lt (Fin p) (Fin q) = (a <? b).
Proof.
  intros Hp Hq. simpl.
  destruct (Z.ltb_spec a b) as [Hlt|Hge].
  - apply Qlt_bool_lt. rewrite Hp, Hq. now rewrite <- Zlt_Qlt.
  - destruct (Qlt_bool p q) eqn:E; [|reflexivity].
    apply Qlt_bool_lt in E. rewrite Hp, Hq in E.
    rewrite <- Zlt_Qlt in E. lia.
Qed.

Lemma num_truthy_integer (q : Q) (a : Z) :
  (q == inject_Z a)%Q -> num_truthy (Fin q) = negb (a =? 0).
Proof.
  intros Hq. simpl. f_equal.
  destruct (Z.eqb_spec a 0) as [->|Hne].
  - now apply Qeq_bool_iff.
  - destruct (Qeq_bool q 0) eqn:E; [|reflexivity].
    apply Qeq_bool_iff in E. rewrite Hq in E.
    apply (inject_Z_injective a 0) in E. contradiction.
Qed.

Lemma same_table : AdminController.ROLE_HIERARCHY = AdminAuth.ROLE_HIERARCHY.
Proof. reflexivity. Qed.

(** The own properties of the table are the five role names, each with its
    documented rank. *)
Lemma own_role_key (m : RoleName) :
  own AdminAuth.ROLE_HIERARCHY (role_key m) = Some (role_rank m).
Proof. destruct m; reflexivity. Qed.

Lemma own_inv (k : string) (v : Z) :
  own AdminAuth.ROLE_HIERARCHY k = Some v ->
  exists m, k = role_key m /\ v = role_rank m.
Proof.
  unfold AdminAuth.ROLE_HIERARCHY. cbn [own].
  destruct (String.eqb_spec "User" k) as [<-|_];
    [intros [= <-]; now exists User|].
  destruct (String.eqb_spec "Moderator" k) as [<-|_];
    [intros [= <-]; now exists Moderator|].
  destruct (String.eqb_spec "Admin" k) as [<-|_];
    [intros [= <-]; now exists Admin|].
  destruct (String.eqb_spec "SuperAdmin" k) as [<-|_];
    [intros [= <-]; now exists SuperAdmin|].
  destruct (String.eqb_spec "Owner" k) as [<-|_];
    [intros [= <-]; now exists Owner|].
  discriminate.
Qed.

Lemma get_role_key (m : RoleName) :
  get AdminAuth.ROLE_HIERARCHY (role_key m)
  = RNumber (Fin (inject_Z (role_rank m))).
Proof. destruct m; reflexivity. Qed.

Lemma get_number_inv (k : string) (n : Number) :
  get AdminAuth.ROLE_HIERARCHY k = RNumber n ->
  exists m, k = role_key m /\ n = Fin (inject_Z (role_rank m)).
Proof.
  unfold get. destruct (own AdminAuth.ROLE_HIERARCHY k) as [v|] eqn:E.
  - intros [= <-]. destruct (own_inv _ _ E) as (m & -> & ->). now exists m.
  - destruct (existsb _ _); discriminate.
Qed.

(** A role value that resolves to a number is truthy unless the number is
    falsy: the keys of the table are non-empty strings. *)
Lemma resolve_number_truthy (v : Value) (n : Number) :
  resolve AdminAuth.ROLE_HIERARCHY v = RNumber n ->
  num_truthy n = true -> truthy v = true.
Proof.
  destruct v as [| |b|n'|s|k]; simpl; intros H Hn.
  - discriminate.
  - discriminate.
  - destruct b; discriminate.
  - now injection H as ->.
  - destruct (get_number_inv _ _ H) as (m & -> & _). now destruct m.
  - reflexivity.
Qed.

Lemma recognized_truthy (v : Value) (r : Z) :
  recognized AdminAuth.ROLE_HIERARCHY v r -> truthy v = true.
Proof.
  intros [(q & Hres & Hq) Hr].
  apply (resolve_number_truthy _ _ Hres).
  rewrite (num_truthy_integer q r Hq).
  destruct (Z.eqb_spec r 0); [lia|reflexivity].
Qed.

(** A role name and its rank as a number are both recognized. *)
Lemma recognized_name (m : RoleName) :
  recognized AdminAuth.ROLE_HIERARCHY (VString (role_key m)) (role_rank m).
Proof.
  split.
  - exists (inject_Z (role_rank m)). split; [apply get_role_key|reflexivity].
  - destruct m; simpl; lia.
Qed.

Lemma recognized_number (m : RoleName) :
  recognized AdminAuth.ROLE_HIERARCHY (Sample.num (role_rank m)) (role_rank m).
Proof.
  split.
  - exists (inject_Z (role_rank m)). split; reflexivity.
  - destruct m; simpl; lia.
Qed.

(** ** The minimum-role gate *)

Module AdminAuthFacts.
Import AdminAuth.

(** The gate on a truthy role claim, in terms of the resolved rank. *)
Lemma requireRole_truthy (m : RoleName) (req : Request) (c : Claims) :
  claims req = Some c -> truthy (role c) = true ->
  requireRole m req =
  if negb (rank_truthy (resolve ROLE_HIERARCHY (role c)))
     || Js.lt (resolve ROLE_HIERARCHY (role c))
              (RNumber (Fin (inject_Z (role_rank m))))
  then answer denied else next.
Proof.
  intros Hc Ht. unfold requireRole. rewrite Hc, Ht. cbn [negb].
  now rewrite get_role_key.
Qed.

(** The gate on a claim that resolves to the non-zero integer [r]. *)
Lemma requireRole_integer (m : RoleName) (req : Request) (c : Claims) (r : Z) :
  claims req = Some c -> truthy (role c) = true -> r <> 0 ->
  resolves_to ROLE_HIERARCHY (role c) r ->
  requireRole m req = if r <? role_rank m then answer denied else next.
Proof.
  intros Hc Ht Hr (q & Hres & Hq).
  rewrite (requireRole_truthy m req c Hc Ht), Hres.
  unfold Js.lt. cbn [rank_truthy to_number].
  rewrite (num_truthy_integer q r Hq).
  rewrite (num_lt_integers q (inject_Z (role_rank m)) r (role_rank m) Hq
             (Qeq_refl _)).
  destruct (Z.eqb_spec r 0); [contradiction|reflexivity].
Qed.

(** C5.  For a minimum role [m] and an actor whose role claim resolves to
    one of the ranks [r] of the hierarchy, [requireRole m] calls [next()]
    if and only if [r] is at least the rank of [m]; otherwise it answers
    403, and the handler behind it on the route is not run: the database is
    the one the request found. *)
Theorem requireRole_meets_minimum
    (m : RoleName) (req : Request) (c : Claims) (r : Z) :
  claims req = Some c ->
  recognized ROLE_HIERARCHY (role c) r ->
  (requireRole m req = next <-> role_rank m <= r)
  /\ (r < role_rank m ->
      requireRole m req = answer denied
      /\ forall (h : Handler) (db : Database),
           route (requireRole m) h req db = (denied, db))
  /\ (role_rank m <= r ->
      forall (h : Handler) (db : Database),
        route (requireRole m) h req db = h req db).
Proof.
  intros Hc Hrec.
  assert (Hgate : requireRole m req
                  = if r <? role_rank m then answer denied else next).
  { apply (requireRole_integer m req c r Hc).
    - apply (recognized_truthy _ _ Hrec).
    - destruct Hrec as [_ Hr]. lia.
    - apply Hrec. }
  unfold route. rewrite Hgate.
  destruct (Z.ltb_spec r (role_rank m)) as [Hlt|Hge].
  - split; [split; [discriminate|lia]|].
    split; [intros _; split; [reflexivity|reflexivity]|lia].
  - split; [split; [lia|reflexivity]|].
    split; [lia|reflexivity].
Qed.

Lemma requireRole_meets_minimum_witness :
  requireRole Admin (Sample.request (VString "SuperAdmin") "1" Sample.no_body)
  = next
  /\ requireRole Admin (Sample.request (Sample.num 2) "1" Sample.no_body)
     = answer denied.
Proof.
  split.
  - apply (requireRole_meets_minimum Admin _ {| role := VString "SuperAdmin" |} 4).
    + reflexivity.
    + apply (recognized_name SuperAdmin).
    + simpl; lia.
  - apply (requireRole_meets_minimum Admin _ {| role := Sample.num 2 |} 2).
    + reflexivity.
    + apply (recognized_number Moderator).
    + simpl; lia.
Defined.

(** C9.  A numeric role claim is compared as it is, not checked against the
    ranks 1 to 5: every number at least the rank of the minimum role (6 and
    beyond, and infinity, included) is let through, and the number 0 is
    answered 401 as a missing authentication. *)
Theorem requireRole_numeric_claim_unchecked
    (m : RoleName) (req : Request) (c : Claims) :
  claims req = Some c ->
  (forall q : Q, role c = VNumber (Fin q) ->
                 (inject_Z (role_rank m) <= q)%Q -> requireRole m req = next)
  /\ (role c = VNumber PosInf -> requireRole m req = next)
  /\ (forall q : Q, role c = VNumber (Fin q) -> (q == 0)%Q ->
                    requireRole m req = answer unauthenticated).
Proof.
  intros Hc. split; [|split].
  - intros q Hrole Hq.
    assert (Hpos : (0 < q)%Q).
    { apply Qlt_le_trans with (inject_Z (role_rank m)); [|exact Hq].
      change 0%Q with (inject_Z 0). rewrite <- Zlt_Qlt. destruct m; simpl; lia. }
    assert (Ht : num_truthy (Fin q) = true).
    { simpl. apply negb_true_iff. destruct (Qeq_bool q 0) eqn:E; [|reflexivity].
      apply Qeq_bool_iff in E. rewrite E in Hpos.
      exfalso. apply (Qlt_irrefl _ Hpos). }
    rewrite (requireRole_truthy m req c Hc); rewrite Hrole; [|exact Ht].
    unfold Js.lt. cbn [resolve rank_truthy to_number num_lt].
    rewrite Ht. cbn [negb orb].
    destruct (Qlt_bool q (inject_Z (role_rank m))) eqn:E; [|reflexivity].
    apply Qlt_bool_lt in E. exfalso. apply (Qlt_not_le _ _ E Hq).
  - intros Hrole.
    rewrite (requireRole_truthy m req c Hc); rewrite Hrole; reflexivity.
  - intros q Hrole Hq. unfold requireRole. rewrite Hc, Hrole. simpl.
    apply Qeq_bool_iff in Hq. now rewrite Hq.
Qed.

Lemma requireRole_numeric_claim_unchecked_witness :
  requireRole Admin (Sample.request (Sample.num 6) "1" Sample.no_body) = next
  /\ requireRole Owner (Sample.request (Sample.num 1000) "1" Sample.no_body)
     = next
  /\ requireRole Admin (Sample.request (Sample.num 0) "1" Sample.no_body)
     = answer unauthenticated.
Proof.
  split; [|split].
  - apply (requireRole_numeric_claim_unchecked Admin
             (Sample.request (Sample.num 6) "1" Sample.no_body)
             {| role := Sample.num 6 |} eq_refl) with (q := inject_Z 6);
      [reflexivity|].
    rewrite <- Zle_Qle. simpl. lia.
  - apply (requireRole_numeric_claim_unchecked Owner
             (Sample.request (Sample.num 1000) "1" Sample.no_body)
             {| role := Sample.num 1000 |} eq_refl) with (q := inject_Z 1000);
      [reflexivity|].
    rewrite <- Zle_Qle. simpl. lia.
  - apply (requireRole_numeric_claim_unchecked Admin
             (Sample.request (Sample.num 0) "1" Sample.no_body)
             {| role := Sample.num 0 |} eq_refl) with (q := inject_Z 0);
      reflexivity.
Defined.

(** A role string that names a member every object inherits is truthy
    and compares false with every rank, so the gate lets it through. *)
Example requireAdmin_inherited_member :
  requireAdmin (Sample.request (VString "constructor") "1" Sample.no_body)
  = next.
Proof. reflexivity. Qed.

(** C6, against the claim as stated: an actor role found nowhere in the
    role table and a recognized role of too low a rank get the very same
    answer from the gate. *)
Lemma requireRole_unrecognized_same_as_too_low :
  resolve ROLE_HIERARCHY (VString "Guest") = RUndefined
  /\ recognized ROLE_HIERARCHY (VString "User") 1
  /\ requireAdmin (Sample.request (VString "Guest") "1" Sample.no_body)
     = requireAdmin (Sample.request (VString "User") "1" Sample.no_body)
  /\ requireAdmin (Sample.request (VString "Guest") "1" Sample.no_body)
     = answer (sendError 403 "Access denied: insufficient privileges").
Proof.
  split; [reflexivity|]. split; [apply (recognized_name User)|].
  split; reflexivity.
Qed.

(** C6, amended.  A request without claims, or whose role claim is absent
    or falsy, is answered 401 "Missing authentication".  A role claim that
    resolves to nothing in the role table and a claim that resolves to a
    rank below the minimum are both answered the same 403 "Access denied:
    insufficient privileges"; the 401 and the 403 differ. *)
Theorem requireRole_failures (m : RoleName) (req : Request) :
  (claims req = None -> requireRole m req = answer unauthenticated)
  /\ (forall c, claims req = Some c -> truthy (role c) = false ->
                requireRole m req = answer unauthenticated)
  /\ (forall c, claims req = Some c -> truthy (role c) = true ->
                resolve ROLE_HIERARCHY (role c) = RUndefined ->
                requireRole m req = answer denied)
  /\ (forall c r, claims req = Some c ->
                  recognized ROLE_HIERARCHY (role c) r -> r < role_rank m ->
                  requireRole m req = answer denied)
  /\ unauthenticated <> denied.
Proof.
  split; [|split; [|split; [|split]]].
  - intros Hc. unfold requireRole. now rewrite Hc.
  - intros c Hc Ht. unfold requireRole. now rewrite Hc, Ht.
  - intros c Hc Ht Hres.
    rewrite (requireRole_truthy m req c Hc Ht), Hres. reflexivity.
  - intros c r Hc Hrec Hlt.
    rewrite (requireRole_integer m req c r Hc (recognized_truthy _ _ Hrec)).
    + destruct (Z.ltb_spec r (role_rank m)); [reflexivity|lia].
    + destruct Hrec as [_ Hr]. lia.
    + apply Hrec.
  - discriminate.
Qed.

Lemma requireRole_failures_witness :
  requireAdmin {| claims := None; id := "1"; body := Sample.no_body |}
  = answer unauthenticated
  /\ requireAdmin (Sample.request (VString "") "1" Sample.no_body)
     = answer unauthenticated
  /\ requireAdmin (Sample.request (VString "Guest") "1" Sample.no_body)
     = answer denied
  /\ requireAdmin (Sample.request (VString "Moderator") "1" Sample.no_body)
     = answer denied.
Proof.
  split; [|split; [|split]].
  - apply (requireRole_failures Admin
             {| claims := None; id := "1"; body := Sample.no_body |}).
    reflexivity.
  - apply (requireRole_failures Admin
             (Sample.request (VString "") "1" Sample.no_body))
      with (c := {| role := VString "" |}); reflexivity.
  - apply (requireRole_failures Admin
             (Sample.request (VString "Guest") "1" Sample.no_body))
      with (c := {| role := VString "Guest" |}); reflexivity.
  - apply (requireRole_failures Admin
             (Sample.request (VString "Moderator") "1" Sample.no_body))
      with (c := {| role := VString "Moderator" |}) (r := 2).
    + reflexivity.
    + apply (recognized_name Moderator).
    + simpl; lia.
Defined.

End AdminAuthFacts.

(** ** The admin controller *)

Module AdminControllerFacts.
Import AdminController.

(** A number that stands for an integer of the INT range is bound to an
    INT parameter as that integer. *)
Lemma Qred_inject_Z (z : Z) : Qred (inject_Z z) = inject_Z z.
Proof.
  pose proof (Qred_correct (inject_Z z)) as H.
  pose proof (gcd_Qred (inject_Z z)) as G.
  destruct (Qred (inject_Z z)) as [n d]. unfold Qeq in H. simpl in H, G.
  rewrite Z.mul_1_r in H. subst n.
  rewrite Z.gcd_comm, Z.mul_comm in G.
  rewrite Z.gcd_mul_diag_l in G by lia.
  injection G as ->. unfold inject_Z. f_equal. lia.
Qed.

Lemma int4_of_number_integer (q : Q) (z : Z) :
  (q == inject_Z z)%Q -> in_INT z = true -> int4_of_number (Fin q) = Some z.
Proof.
  intros Hq Hz. unfold int4_of_number.
  rewrite (Qred_complete q (inject_Z z) Hq), Qred_inject_Z.
  simpl. now rewrite Hz.
Qed.

Lemma in_INT_rank (r : Z) : 1 <= r <= 5 -> in_INT r = true.
Proof.
  intros Hr. unfold in_INT, INT_MIN, INT_MAX.
  apply andb_true_iff. split; apply Z.leb_le; lia.
Qed.

Section Handlers.

Variable int4in : string -> option Z.
Variable generateSaltedHash : Value -> option (string * string).
Variable now : Z.
Variable nextval : Z.

(** What follows a passed check never answers 403. *)
Lemma createUser_insert_not_403 (k : Rank) (req : Request) (db : Database) :
  fst (createUser_insert now nextval k req db) <> forbidden_create.
Proof.
  unfold createUser_insert.
  destruct (INSERT_Account _ _ _ _ _ _ _ _ _) as [[row rows]|]; discriminate.
Qed.

Lemma changeUserRole_update_not_403 (k : Rank) (req : Request) (db : Database) :
  fst (changeUserRole_update int4in now k req db) <> forbidden_assign.
Proof.
  unfold changeUserRole_update, update_where.
  destruct (int4_param k) as [[r|]|]; destruct (int4in (id req)) as [n|];
    try discriminate.
  - destruct (_ =? _)%nat; discriminate.
  - destruct (filter _ _); discriminate.
Qed.

(** [createUser] on two roles that resolve to integers. *)
Lemma createUser_integers (req : Request) (db : Database) (c : Claims)
    (a t : Z) :
  claims req = Some c ->
  resolves_to ROLE_HIERARCHY (role c) a ->
  resolves_to ROLE_HIERARCHY (b_role (body req)) t ->
  createUser now nextval req db =
  if a <? t then (forbidden_create, db)
  else createUser_insert now nextval
         (resolve ROLE_HIERARCHY (b_role (body req))) req db.
Proof.
  intros Hc (qa & Ha & Hqa) (qt & Ht & Hqt).
  unfold createUser. rewrite Hc. cbv zeta. rewrite Ha, Ht.
  unfold Js.gt, Js.lt. cbn [to_number].
  now rewrite (num_lt_integers qa qt a t Hqa Hqt).
Qed.

(** [changeUserRole] on an actor role that resolves to an integer and a
    target role that resolves to a rank of the hierarchy. *)
Lemma changeUserRole_integers (req : Request) (db : Database) (c : Claims)
    (a t : Z) :
  claims req = Some c ->
  resolves_to ROLE_HIERARCHY (role c) a ->
  recognized ROLE_HIERARCHY (b_role (body req)) t ->
  changeUserRole int4in now req db =
  if a <? t then (forbidden_assign, db)
  else changeUserRole_update int4in now
         (resolve ROLE_HIERARCHY (b_role (body req))) req db.
Proof.
  intros Hc (qa & Ha & Hqa) Hrec.
  pose proof (recognized_truthy _ _ Hrec) as Htruthy.
  destruct Hrec as [(qt & Ht & Hqt) Hr].
  unfold changeUserRole. rewrite Hc. cbv zeta. rewrite Htruthy, Ha, Ht.
  unfold Js.gt, Js.lt. cbn [to_number rank_truthy negb].
  rewrite (num_truthy_integer qt t Hqt).
  rewrite (num_lt_integers qt (inject_Z 1) t 1 Hqt (Qeq_refl _)).
  rewrite (num_lt_integers (inject_Z 5) qt 5 t (Qeq_refl _) Hqt).
  rewrite (num_lt_integers qa qt a t Hqa Hqt).
  destruct (Z.eqb_spec t 0); [lia|].
  destruct (Z.ltb_spec t 1); [lia|].
  destruct (Z.ltb_spec 5 t); [lia|].
  reflexivity.
Qed.

(** C1.  When the actor's role and the target role resolve to ranks [a]
    and [t] of the hierarchy, [createUser] and [changeUserRole] answer
    their 403 exactly when [t] is greater than [a], leaving the database
    as it was; when [t] is at most [a] both go on to their statement, to
    which the target role is bound as the integer [t]. *)
Theorem privilege_check_monotone
    (req : Request) (db : Database) (c : Claims) (a t : Z) :
  claims req = Some c ->
  recognized ROLE_HIERARCHY (role c) a ->
  recognized ROLE_HIERARCHY (b_role (body req)) t ->
  let targetRank := resolve ROLE_HIERARCHY (b_role (body req)) in
  (a < t ->
     createUser now nextval req db = (forbidden_create, db)
     /\ changeUserRole int4in now req db = (forbidden_assign, db))
  /\ (t <= a ->
      createUser now nextval req db
      = createUser_insert now nextval targetRank req db
      /\ changeUserRole int4in now req db
         = changeUserRole_update int4in now targetRank req db
      /\ int4_param targetRank = Some (Some t))
  /\ (fst (createUser now nextval req db) = forbidden_create <-> a < t)
  /\ (fst (changeUserRole int4in now req db) = forbidden_assign <-> a < t).
Proof.
  intros Hc Ha Ht targetRank.
  pose proof (createUser_integers req db c a t Hc (proj1 Ha) (proj1 Ht)) as Hcreate.
  pose proof (changeUserRole_integers req db c a t Hc (proj1 Ha) Ht) as Hchange.
  fold targetRank in Hcreate, Hchange.
  rewrite Hcreate, Hchange.
  destruct (Z.ltb_spec a t) as [Hlt|Hge].
  - split; [now split|]. split; [lia|]. now split.
  - split; [lia|]. split; [|split].
    + intros _. split; [reflexivity|]. split; [reflexivity|].
      destruct Ht as [(qt & Hres & Hqt) Hr].
      unfold targetRank. rewrite Hres. cbn [int4_param].
      now rewrite (int4_of_number_integer qt t Hqt (in_INT_rank t Hr)).
    + split; [|lia]. intros H. exfalso.
      exact (createUser_insert_not_403 _ _ _ H).
    + split; [|lia]. intros H. exfalso.
      exact (changeUserRole_update_not_403 _ _ _ H).
Qed.

(** Rows that a WHERE clause does not select are left alone. *)
Lemma update_where_none {A : Type} (p : A -> bool) (f : A -> A)
    (rows : list A) :
  (forall r, In r rows -> p r = false) ->
  update_where p f rows = (rows, 0%nat).
Proof.
  intros H. unfold update_where. f_equal.
  - rewrite <- (map_id rows) at 2. apply map_ext_in.
    intros r Hr. now rewrite (H r Hr).
  - induction rows as [|r rows IH]; [reflexivity|].
    simpl. rewrite (H r (or_introl eq_refl)). apply IH.
    intros r' Hr'. apply H. now right.
Qed.

Lemma filter_some {A : Type} (p : A -> bool) (rows : list A) (r : A) :
  In r rows -> p r = true -> (List.length (filter p rows) =? 0)%nat = false.
Proof.
  intros Hin Hp. apply Nat.eqb_neq. intros Hlen.
  apply length_zero_iff_nil in Hlen.
  assert (Hf : In r (filter p rows)) by (apply filter_In; now split).
  rewrite Hlen in Hf. exact Hf.
Qed.

Lemma set_Account_Rows_same (db : Database) :
  set_Account_Rows db (Account_rows db) = db.
Proof. now destruct db. Qed.

(** C10.  [deleteUser] on an identifier that reads as the integer [n]
    keeps every account row in its place; the rows whose key is [n] get
    the status 'inactive' and the update time, and nothing else of them
    changes; all other rows, and the credential and verification tables,
    are unchanged.  It answers success when such a row exists, and 404
    with the database untouched when none does. *)
Theorem deleteUser_soft_delete (req : Request) (db : Database) (n : Z) :
  int4in (id req) = Some n ->
  let r := deleteUser int4in now req db in
  Credential_rows (snd r) = Credential_rows db
  /\ verification_rows (snd r) = verification_rows db
  /\ map Account_ID (Account_rows (snd r)) = map Account_ID (Account_rows db)
  /\ (forall i a, nth_error (Account_rows db) i = Some a ->
        exists a', nth_error (Account_rows (snd r)) i = Some a'
                   /\ (Account_ID a = n -> soft_deleted now a a')
                   /\ (Account_ID a <> n -> a' = a))
  /\ ((exists a, In a (Account_rows db) /\ Account_ID a = n) ->
      fst r = sendSuccess "User deleted successfully" [])
  /\ ((forall a, In a (Account_rows db) -> Account_ID a <> n) ->
      r = (sendError 404 "User not found", db)).
Proof.
  intros Hid r.
  set (rows := map (fun a => if Account_ID a =? n then soft_delete now a else a)
                   (Account_rows db)).
  assert (Hsnd : snd r = set_Account_Rows db rows).
  { unfold r, deleteUser, update_where. rewrite Hid.
    now destruct (_ =? _)%nat. }
  rewrite Hsnd. cbn [set_Account_Rows Credential_rows verification_rows
                     Account_rows].
  split; [reflexivity|]. split; [reflexivity|]. split; [|split; [|split]].
  - unfold rows. rewrite map_map. apply map_ext.
    intros a. now destruct (Account_ID a =? n).
  - intros i a Hi. unfold rows.
    rewrite (map_nth_error _ _ _ Hi).
    eexists. split; [reflexivity|].
    destruct (Z.eqb_spec (Account_ID a) n) as [He|Hne].
    + split; [|contradiction]. intros _. unfold soft_deleted, soft_delete.
      cbn. repeat split.
    + split; [contradiction|reflexivity].
  - intros (a & Hin & Ha).
    unfold r, deleteUser, update_where. rewrite Hid.
    rewrite (filter_some (fun a => Account_ID a =? n) _ a Hin);
      [reflexivity|]. now apply Z.eqb_eq.
  - intros Hnone.
    unfold r, deleteUser. rewrite Hid.
    rewrite update_where_none.
    + cbn. now rewrite set_Account_Rows_same.
    + intros a Ha. apply Z.eqb_neq. now apply Hnone.
Qed.

(** An identifier that PostgreSQL does not read as an integer makes the
    statement fail: the answer is 500 and nothing changes. *)
Lemma deleteUser_malformed_id (req : Request) (db : Database) :
  int4in (id req) = None ->
  deleteUser int4in now req db = (sendError 500 "Failed to delete user", db).
Proof. intros H. unfold deleteUser. now rewrite H. Qed.

(** The table has no unique index on [Account_ID], so the upsert of
    [resetUserPassword] is rejected before it looks at a row. *)
Lemma upsert_rejected (accounts : list Account) (aid : Z) (hash salt : string)
    (rows : list Account_Credential) :
  INSERT_Credential_ON_CONFLICT Account_Credential_unique nextval accounts
    aid hash salt rows = None.
Proof. reflexivity. Qed.

(** Whatever the request, [resetUserPassword] answers an error and leaves
    the database as it was. *)
Lemma resetUserPassword_never_succeeds (req : Request) (db : Database) :
  snd (resetUserPassword int4in generateSaltedHash nextval req db) = db
  /\ exists status message,
       fst (resetUserPassword int4in generateSaltedHash nextval req db)
       = sendError status message.
Proof.
  unfold resetUserPassword. cbv zeta.
  destruct (negb (truthy _)); [split; [reflexivity|now eexists; eexists]|].
  destruct (int4in (id req)) as [n|]; [|split; [reflexivity|now eexists; eexists]].
  destruct (_ =? _)%nat; [split; [reflexivity|now eexists; eexists]|].
  destruct (generateSaltedHash _) as [[salt hash]|];
    [|split; [reflexivity|now eexists; eexists]].
  rewrite upsert_rejected. split; [reflexivity|now eexists; eexists].
Qed.

(** C3, on the code.  For an existing account, a non-empty password and a
    hashing call that succeeds, [resetUserPassword] answers 500 and writes
    no credential: the account's credential rows are the ones it had,
    none when it had none. *)
Theorem resetUserPassword_upsert_rejected
    (req : Request) (db : Database) (pw : string) (n : Z) (a : Account)
    (salt hash : string) :
  password (body req) = VString pw -> pw <> "" ->
  int4in (id req) = Some n ->
  In a (Account_rows db) -> Account_ID a = n ->
  generateSaltedHash (VString pw) = Some (salt, hash) ->
  resetUserPassword int4in generateSaltedHash nextval req db
  = (sendError 500 "Failed to reset password", db).
Proof.
  intros Hpw Hne Hid Hin Ha Hgen.
  unfold resetUserPassword. rewrite Hpw. cbv zeta. cbn [truthy].
  destruct (String.eqb_spec pw "") as [->|_]; [contradiction|].
  cbn [negb]. rewrite Hid.
  rewrite (filter_some (fun a => Account_ID a =? n) _ a Hin)
    by now apply Z.eqb_eq.
  rewrite Hgen. now rewrite upsert_rejected.
Qed.

End Handlers.

(** With a unique index on [Account_ID] the same statement is the upsert
    the handler means: an account with at most one credential row has
    exactly one afterwards, holding the new hash and salt. *)
Lemma upsert_with_index (indexes : list (list Credential_column))
    (nextval : Z) (accounts : list Account) (aid : Z) (hash salt : string)
    (rows rows' : list Account_Credential) :
  INSERT_Credential_ON_CONFLICT indexes nextval accounts aid hash salt rows
  = Some rows' ->
  (List.length (credentials_of aid rows) <= 1)%nat ->
  infer_arbiter indexes [cAccount_ID] = true
  /\ exists r, credentials_of aid rows' = [r]
               /\ varchar 255 hash = Some (Salted_Hash r)
               /\ option_map Some (varchar 255 salt) = Some (Salt r).
Proof.
  unfold INSERT_Credential_ON_CONFLICT, credentials_of.
  destruct (infer_arbiter indexes [cAccount_ID]); [|discriminate].
  cbn [negb]. destruct (varchar 255 hash) as [h|]; [|discriminate].
  destruct (varchar 255 salt) as [s|]; [|discriminate].
  destruct (existsb _ rows) eqn:Eex.
  - intros [= <-] Hle. split; [reflexivity|].
    induction rows as [|x rows IH]; [discriminate|].
    cbn [map filter] in *.
    destruct (Z.eqb_spec (Cred_Account_ID x) aid) as [Hx|Hx].
    + cbn [Cred_Account_ID]. rewrite (proj2 (Z.eqb_eq _ _) Hx).
      cbn [List.length] in Hle.
      assert (Hnil : filter (fun r => Cred_Account_ID r =? aid) rows = [])
        by (apply length_zero_iff_nil; lia).
      assert (Hmap : map (fun r => if Cred_Account_ID r =? aid
                                   then {| Credential_ID := Credential_ID r;
                                           Cred_Account_ID := Cred_Account_ID r;
                                           Salted_Hash := h;
                                           Salt := Some s |}
                                   else r) rows = rows).
      { rewrite <- (map_id rows) at 2. apply map_ext_in. intros r Hr.
        destruct (Cred_Account_ID r =? aid) eqn:E; [|reflexivity].
        assert (Hf : In r (filter (fun r => Cred_Account_ID r =? aid) rows))
          by (apply filter_In; now split).
        rewrite Hnil in Hf. destruct Hf. }
      rewrite Hmap, Hnil. eexists. split; [reflexivity|]. now split.
    + rewrite (proj2 (Z.eqb_neq _ _) Hx). apply IH; [|exact Hle].
      cbn [existsb] in Eex. rewrite (proj2 (Z.eqb_neq _ _) Hx) in Eex.
      exact Eex.
  - destruct (existsb (fun r => Credential_ID r =? nextval) rows);
      [discriminate|].
    destruct (negb _); [discriminate|].
    intros [= <-] _. split; [reflexivity|].
    rewrite filter_app.
    assert (Hnil : filter (fun r => Cred_Account_ID r =? aid) rows = []).
    { induction rows as [|x rows IH]; [reflexivity|].
      cbn [existsb filter] in *. apply orb_false_iff in Eex.
      destruct Eex as [E1 E2]. rewrite E1. now apply IH. }
    rewrite Hnil. cbn. rewrite Z.eqb_refl.
    eexists. split; [reflexivity|]. now split.
Qed.

Lemma privilege_check_monotone_witness :
  createUser 2000 2
    (Sample.request (Sample.num 3) "" (Sample.new_user (VString "SuperAdmin")))
    Sample.db1
  = (forbidden_create, Sample.db1)
  /\ int4_param (resolve ROLE_HIERARCHY (VString "Moderator")) = Some (Some 2).
Proof.
  split.
  - apply (privilege_check_monotone Sample.int4in 2000 2
             (Sample.request (Sample.num 3) ""
                (Sample.new_user (VString "SuperAdmin")))
             Sample.db1 {| role := Sample.num 3 |} 3 4 eq_refl
             (recognized_number Admin) (recognized_name SuperAdmin)).
    lia.
  - apply (privilege_check_monotone Sample.int4in 2000 2
             (Sample.request (Sample.num 3) ""
                (Sample.new_user (VString "Moderator")))
             Sample.db1 {| role := Sample.num 3 |} 3 2 eq_refl
             (recognized_number Admin) (recognized_name Moderator)).
    lia.
Defined.

Lemma deleteUser_soft_delete_witness :
  fst (deleteUser Sample.int4in 2000
         (Sample.request (Sample.num 3) "1" Sample.no_body) Sample.db1)
  = sendSuccess "User deleted successfully" []
  /\ Credential_rows
       (snd (deleteUser Sample.int4in 2000
               (Sample.request (Sample.num 3) "1" Sample.no_body) Sample.db1))
     = [Sample.alice_credential]
  /\ deleteUser Sample.int4in 2000
       (Sample.request (Sample.num 3) "9" Sample.no_body) Sample.db1
     = (sendError 404 "User not found", Sample.db1).
Proof.
  split; [|split].
  - apply (deleteUser_soft_delete Sample.int4in 2000
             (Sample.request (Sample.num 3) "1" Sample.no_body) Sample.db1 1
             eq_refl).
    exists Sample.alice. split; [now left|reflexivity].
  - apply (deleteUser_soft_delete Sample.int4in 2000
             (Sample.request (Sample.num 3) "1" Sample.no_body) Sample.db1 1
             eq_refl).
  - apply (deleteUser_soft_delete Sample.int4in 2000
             (Sample.request (Sample.num 3) "9" Sample.no_body) Sample.db1 9
             eq_refl).
    intros a [<-|[]]. discriminate.
Defined.

Lemma resetUserPassword_upsert_rejected_witness :
  resetUserPassword Sample.int4in Sample.generateSaltedHash 1
    {| claims := Some {| role := Sample.num 3 |};
       id := "1";
       body := {| firstname := None; lastname := None; email := None;
                  username := None; phone := None; b_role := VUndefined;
                  password := VString "NewPass123!" |} |}
    {| Account_rows := [Sample.alice];
       Credential_rows := [];
       verification_rows := [] |}
  = (sendError 500 "Failed to reset password",
     {| Account_rows := [Sample.alice];
        Credential_rows := [];
        verification_rows := [] |}).
Proof.
  apply (resetUserPassword_upsert_rejected Sample.int4in
           Sample.generateSaltedHash 1 _ _ "NewPass123!" 1 Sample.alice
           "c2FsdA" "sha256:NewPass123!").
  - reflexivity.
  - discriminate.
  - reflexivity.
  - now left.
  - reflexivity.
  - reflexivity.
Defined.

(** C2, on the code.  [createUser] does not look at what the target role
    resolves to before its privilege check: for an Admin, the number 0
    creates an account of role 0, a missing role or an unknown name
    reaches the INSERT and comes back as a 500, and the number 7 is
    answered with the 403 of the privilege check.  [changeUserRole]
    answers 400 on each of these; a name that only resolves to an
    inherited member passes its checks and fails in the UPDATE. *)
Theorem createUser_target_role_unchecked :
  let admin := Sample.num 3 in
  let create r :=
    createUser 2000 2 (Sample.request admin "" (Sample.new_user r)) Sample.db1 in
  let change r :=
    changeUserRole Sample.int4in 2000
      (Sample.request admin "1" (Sample.new_user r)) Sample.db1 in
  create (Sample.num 0)
  = (sendSuccess "User created successfully" [Sample.bob 2 2000 0],
     {| Account_rows := [Sample.alice; Sample.bob 2 2000 0];
        Credential_rows := [Sample.alice_credential];
        verification_rows := [] |})
  /\ create VUndefined = (sendError 500 "Failed to create user", Sample.db1)
  /\ create (VString "Guest")
     = (sendError 500 "Failed to create user", Sample.db1)
  /\ create (Sample.num 7) = (forbidden_create, Sample.db1)
  /\ change (Sample.num 0) = (sendError 400 "Role is required", Sample.db1)
  /\ change VUndefined = (sendError 400 "Role is required", Sample.db1)
  /\ change (VString "Guest")
     = (sendError 400 "Invalid role specified", Sample.db1)
  /\ change (Sample.num 7)
     = (sendError 400 "Invalid role specified", Sample.db1)
  /\ change (VString "constructor")
     = (sendError 500 "Failed to change user role", Sample.db1).
Proof. cbv zeta. repeat split; vm_compute; reflexivity. Qed.

(** C7.  Written as a number or as a name, a role of the hierarchy
    resolves to the same integer, its rank, in the table of the middleware
    and in the table of the controller, which resolve every value alike;
    so the gate, [createUser] and [changeUserRole] give the same result
    whichever form the actor's role and the target role are written in. *)
Theorem role_forms_agree (m : RoleName) :
  (forall numeric,
      resolve AdminAuth.ROLE_HIERARCHY (form numeric m)
      = RNumber (Fin (inject_Z (role_rank m)))
      /\ resolve AdminController.ROLE_HIERARCHY (form numeric m)
         = RNumber (Fin (inject_Z (role_rank m))))
  /\ resolve AdminAuth.ROLE_HIERARCHY (VNumber (Fin (inject_Z 3)))
     = resolve AdminAuth.ROLE_HIERARCHY (VString "Admin")
  /\ (forall v, resolve AdminAuth.ROLE_HIERARCHY v
                = resolve AdminController.ROLE_HIERARCHY v)
  /\ (forall (fa ft : bool) (t k : RoleName) int4in now nextval i b db,
         AdminAuth.requireRole k (role_request (form fa m) (form ft t) i b)
         = AdminAuth.requireRole k (role_request (form false m) (form false t) i b)
         /\ createUser now nextval
              (role_request (form fa m) (form ft t) i b) db
            = createUser now nextval
                (role_request (form false m) (form false t) i b) db
         /\ changeUserRole int4in now
              (role_request (form fa m) (form ft t) i b) db
            = changeUserRole int4in now
                (role_request (form false m) (form false t) i b) db).
Proof.
  split; [|split; [|split]].
  - intros numeric. destruct numeric, m; split; reflexivity.
  - reflexivity.
  - reflexivity.
  - intros fa ft t k int4in now nextval i b db.
    destruct fa, ft, m, t, k; repeat split; reflexivity.
Qed.

End AdminControllerFacts.

(** ** The verification-code table *)

Module VerificationCodesFacts.
Import VerificationCodes.

(** C8, against the claim as stated: the table takes no record of a third
    purpose, whatever its secret, and no secret that is not six digits,
    whatever its purpose. *)
Lemma verification_codes_reject_reset_token :
  let insert type secret :=
    INSERT_verification_code 1 2000 [Sample.alice] 1 type secret 3800 [] in
  insert "reset" "9f86d081884c7d659a2feaa0c55ad015" = None
  /\ insert "reset" "123456" = None
  /\ insert "email" "9f86d081884c7d659a2feaa0c55ad015" = None
  /\ insert "email" "a1b2c3" = None
  /\ insert "email" "123456" <> None.
Proof. cbv zeta. repeat split; try reflexivity. discriminate. Qed.

Lemma code_type_check_inv (t : string) :
  code_type_check t = true -> t = "email" \/ t = "phone".
Proof.
  unfold code_type_check. intros H. apply orb_true_iff in H.
  destruct H as [H|H]; apply String.eqb_eq in H; auto.
Qed.

Lemma valid_code_inv (c : string) :
  valid_code c = true -> String.length c = 6%nat /\ all_digits c = true.
Proof.
  unfold valid_code. intros H.
  apply andb_true_iff in H. destruct H as [H Hd].
  apply andb_true_iff in H. destruct H as [Hl _].
  apply Nat.eqb_eq in Hl. now split.
Qed.

(** C8, amended.  Every record the table accepts is of type 'email' or
    'phone' and its secret is six decimal digits; it is appended to the
    table and found again by its secret. *)
Theorem verification_codes_two_purposes
    (nextval now : Z) (accounts : list Account) (aid : Z)
    (type secret : string) (expires : Z) (rows rows' : list verification_code) :
  INSERT_verification_code nextval now accounts aid type secret expires rows
  = Some rows' ->
  exists r,
    rows' = (rows ++ [r])%list
    /\ (code_type r = "email" \/ code_type r = "phone")
    /\ String.length (code r) = 6%nat
    /\ all_digits (code r) = true
    /\ account_id r = aid
    /\ In r (lookup_by_secret (code r) rows').
Proof.
  unfold INSERT_verification_code.
  destruct (varchar 10 type) as [t|]; [|discriminate].
  destruct (varchar 6 secret) as [c|]; [|discriminate].
  destruct (code_type_check t) eqn:Et; [|discriminate].
  destruct (valid_code c) eqn:Ec; [|discriminate].
  cbn [negb orb].
  destruct (existsb _ rows); [discriminate|].
  destruct (negb _); [discriminate|].
  intros [= <-]. eexists. split; [reflexivity|]. cbn.
  split; [now apply code_type_check_inv|].
  destruct (valid_code_inv c Ec) as [Hl Hd].
  split; [exact Hl|]. split; [exact Hd|]. split; [reflexivity|].
  unfold lookup_by_secret. apply filter_In. split.
  - apply in_or_app. right. now left.
  - cbn. apply String.eqb_refl.
Qed.

Lemma verification_codes_two_purposes_witness :
  exists r,
    (code_type r = "email" \/ code_type r = "phone")
    /\ String.length (code r) = 6%nat
    /\ code r = "042917".
Proof.
  destruct (verification_codes_two_purposes 1 2000 [Sample.alice] 1
              "phone" "042917" 2600 []
              [ {| code_id := 1; account_id := 1; code_type := "phone";
                   code := "042917"; expires_at := 2600;
                   attempts := Some 0; created_at := Some 2000;
                   used_at := None |} ] eq_refl)
    as (r & Hrows & Htype & Hlen & _ & _ & _).
  exists r. split; [exact Htype|]. split; [exact Hlen|].
  injection Hrows as <-. reflexivity.
Defined.

End VerificationCodesFacts.

(** ** Issuing a verification record *)

Module CodeStoreFacts.
Import CodeStore.

Lemma Purpose_eqb_eq (a b : Purpose) : Purpose_eqb a b = true <-> a = b.
Proof. destruct a, b; simpl; split; congruence. Qed.

Lemma same_key_spec (sid : Z) (p : Purpose) (r : VerificationRecord) :
  same_key sid p r = true <-> subjectId r = sid /\ purpose r = p.
Proof.
  unfold same_key. rewrite andb_true_iff, Z.eqb_eq, Purpose_eqb_eq.
  reflexivity.
Qed.

(** A record that is active stays so when the clock is turned back: what
    is not active now is not active later. *)
Lemma active_earlier (now t : Z) (r : VerificationRecord) :
  now <= t -> active t r = true -> active now r = true.
Proof.
  unfold active. intros Hle. destruct (consumedAt r); [discriminate|].
  rewrite !Z.leb_le. lia.
Qed.

Lemma filter_filter_nil {A : Type} (f g : A -> bool) (l : list A) :
  (forall x, f x = true -> g x = false) -> filter f (filter g l) = [].
Proof.
  intros H. induction l as [|x l IH]; [reflexivity|].
  simpl. destruct (g x) eqn:Eg; [|exact IH].
  simpl. destruct (f x) eqn:Ef; [|exact IH].
  rewrite (H x Ef) in Eg. discriminate.
Qed.

Lemma filter_filter_keep {A : Type} (f g : A -> bool) (l : list A) :
  (forall x, f x = true -> g x = true) -> filter f (filter g l) = filter f l.
Proof.
  intros H. induction l as [|x l IH]; [reflexivity|].
  simpl. destruct (g x) eqn:Eg.
  - simpl. destruct (f x); [now rewrite IH|exact IH].
  - destruct (f x) eqn:Ef; [|exact IH].
    rewrite (H x Ef) in Eg. discriminate.
Qed.

(** After an issue at time [now], the active records of the issued pair at
    a later time [t] are the new record alone, or none once it expired. *)
Lemma issue_active_same (now sid : Z) (p : Purpose) (s : string) (ttl : Z)
    (store : list VerificationRecord) (t : Z) :
  now <= t ->
  active_for t sid p (snd (issue now sid p s ttl store))
  = if t <=? now + ttl then [fst (issue now sid p s ttl store)] else [].
Proof.
  intros Hle. unfold active_for, issue. cbn [fst snd filter].
  rewrite filter_filter_nil.
  - unfold same_key at 1. cbn [subjectId purpose].
    rewrite Z.eqb_refl. rewrite (proj2 (Purpose_eqb_eq p p) eq_refl).
    cbn [andb]. unfold active at 1. cbn [consumedAt expiresAt].
    reflexivity.
  - intros x Hx. apply andb_true_iff in Hx. destruct Hx as [Hk Ha].
    rewrite Hk, (active_earlier now t x Hle Ha). reflexivity.
Qed.

(** The records of every other pair are the ones the store had. *)
Lemma issue_frame (now sid : Z) (p : Purpose) (s : string) (ttl : Z)
    (store : list VerificationRecord) (sid' : Z) (p' : Purpose) :
  (sid', p') <> (sid, p) ->
  filter (same_key sid' p') (snd (issue now sid p s ttl store))
  = filter (same_key sid' p') store.
Proof.
  intros Hne. unfold issue. cbn [snd filter].
  assert (Hnew : same_key sid' p'
                   {| subjectId := sid; purpose := p; secret := s;
                      issuedAt := now; expiresAt := now + ttl;
                      attempts := 0; consumedAt := None |} = false).
  { destruct (same_key sid' p' _) eqn:E; [|reflexivity].
    apply same_key_spec in E. cbn in E. destruct E as [-> ->].
    now contradiction Hne. }
  rewrite Hnew. apply filter_filter_keep.
  intros x Hx. apply same_key_spec in Hx. destruct Hx as [Hs Hp].
  destruct (same_key sid p x) eqn:E; [|reflexivity].
  apply same_key_spec in E. destruct E as [Hs' Hp'].
  exfalso. apply Hne. congruence.
Qed.

Lemma active_for_filter (t sid : Z) (p : Purpose)
    (store : list VerificationRecord) :
  active_for t sid p store = filter (active t) (filter (same_key sid p) store).
Proof.
  unfold active_for. induction store as [|x l IH]; [reflexivity|].
  simpl. destruct (same_key sid p x); simpl.
  - destruct (active t x); now rewrite IH.
  - exact IH.
Qed.

(** An issue keeps a store with at most one active record per pair such
    a store, at every time from the issue on. *)
Lemma issue_keeps_invariant (now sid : Z) (p : Purpose) (s : string)
    (ttl : Z) (store : list VerificationRecord) (t : Z) :
  now <= t ->
  at_most_one_active t store ->
  at_most_one_active t (snd (issue now sid p s ttl store)).
Proof.
  intros Hle Hinv sid' p'.
  destruct (Z.eq_dec sid' sid) as [Hs|Hs].
  - destruct (Purpose_eqb p' p) eqn:Ep.
    + apply Purpose_eqb_eq in Ep. subst sid' p'.
      rewrite (issue_active_same now sid p s ttl store t Hle).
      destruct (t <=? now + ttl); simpl; lia.
    + rewrite active_for_filter, issue_frame.
      * rewrite <- active_for_filter. apply Hinv.
      * intros [= _ Hp]. subst p'.
        rewrite (proj2 (Purpose_eqb_eq p p) eq_refl) in Ep. discriminate.
  - rewrite active_for_filter, issue_frame.
    + rewrite <- active_for_filter. apply Hinv.
    + intros [= Hs' _]. contradiction.
Qed.

(** Starting from the empty store, no history of issues leaves two active
    records of one pair at a time that is not before its issues. *)
Lemma issue_all_invariant (history : list Issue) (t : Z) :
  Forall (fun i => issue_time i <= t) history ->
  at_most_one_active t (issue_all history []).
Proof.
  assert (H : forall store, Forall (fun i => issue_time i <= t) history ->
                            at_most_one_active t store ->
                            at_most_one_active t (issue_all history store)).
  { induction history as [|[[[[now sid] p] s] ttl] history IH];
      intros store Hall Hinv; [exact Hinv|].
    inversion Hall as [|? ? Hnow Hrest]; subst. cbn [issue_all].
    apply IH; [exact Hrest|].
    apply issue_keeps_invariant; [exact Hnow|exact Hinv]. }
  intros Hall. apply H; [exact Hall|].
  intros sid p. simpl. lia.
Qed.

(** C4.  Issuing at time [now] a record for (subject, purpose) with a
    positive time to live leaves, at every time [t] from [now] on, the new
    record as the only active record of that pair (none once it has
    expired), so a prior active record of the pair is active no more; the
    records of every other pair, the other purposes of the same subject
    among them, are untouched; and a store with at most one active record
    per pair is still one. *)
Theorem issue_one_active_per_pair (now sid : Z) (p : Purpose) (s : string)
    (ttl : Z) (store : list VerificationRecord) (t : Z) :
  0 < ttl -> now <= t ->
  let r := fst (issue now sid p s ttl store) in
  let store' := snd (issue now sid p s ttl store) in
  active_for t sid p store' = (if t <=? expiresAt r then [r] else [])
  /\ active now r = true
  /\ issuedAt r < expiresAt r
  /\ In r store'
  /\ (forall sid' p', (sid', p') <> (sid, p) ->
        filter (same_key sid' p') store' = filter (same_key sid' p') store)
  /\ (at_most_one_active t store -> at_most_one_active t store').
Proof.
  intros Httl Hle r store'.
  split; [exact (issue_active_same now sid p s ttl store t Hle)|].
  split; [|split; [|split; [|split]]].
  - unfold r, issue, active. cbn. apply Z.leb_le. lia.
  - unfold r, issue. cbn. lia.
  - unfold r, store', issue. cbn. now left.
  - intros sid' p' Hne. apply issue_frame. exact Hne.
  - intros Hinv. apply issue_keeps_invariant; [exact Hle|exact Hinv].
Qed.

Lemma issue_one_active_per_pair_witness :
  let store := [Sample.email_code; Sample.phone_code] in
  let r := fst (issue 100 42 EmailVerify "333333" 600 store) in
  let store' := snd (issue 100 42 EmailVerify "333333" 600 store) in
  active_for 100 42 EmailVerify store = [Sample.email_code]
  /\ active_for 100 42 EmailVerify store' = [r]
  /\ filter (same_key 42 PhoneVerify) store' = [Sample.phone_code].
Proof.
  cbv zeta.
  destruct (issue_one_active_per_pair 100 42 EmailVerify "333333" 600
              [Sample.email_code; Sample.phone_code] 100)
    as (H1 & _ & _ & _ & H5 & _); [lia|lia|].
  split; [reflexivity|]. split; [exact H1|].
  apply (H5 42 PhoneVerify). discriminate.
Defined.

End CodeStoreFacts.

(** * Further properties *)

(** ** Roles written as digits, and the order of the gates *)

Module RoleFacts.
Import AdminAuth VerificationCodes.

(** A string that starts with a digit differs from a string that starts
    with a character that is no digit. *)
Lemma eqb_digit_head_l (x c : ascii) (k s : string) :
  is_digit c = true -> is_digit x = false ->
  String.eqb (String x k) (String c s) = false.
Proof.
  intros Hc Hx. cbn [String.eqb].
  destruct (Ascii.eqb_spec x c) as [->|_]; [congruence|reflexivity].
Qed.

Lemma eqb_digit_head_r (x c : ascii) (k s : string) :
  is_digit c = true -> is_digit x = false ->
  String.eqb (String c s) (String x k) = false.
Proof.
  intros Hc Hx. rewrite String.eqb_sym. now apply eqb_digit_head_l.
Qed.

Lemma get_digits (s : string) :
  s <> "" -> all_digits s = true ->
  get ROLE_HIERARCHY s = RUndefined.
Proof.
  destruct s as [|c s]; [contradiction|]. intros _ Hd.
  cbn [all_digits] in Hd. apply andb_true_iff in Hd. destruct Hd as [Hc _].
  unfold get, ROLE_HIERARCHY, Object_prototype. cbn [own existsb].
  rewrite !(eqb_digit_head_l _ c _ s Hc) by reflexivity.
  rewrite !(eqb_digit_head_r _ c _ s Hc) by reflexivity.
  reflexivity.
Qed.

(** A rank written as a string of digits ("3") is no role: both tables
    resolve it to [undefined], so as an actor's role it is denied by the
    gate, and as a target role [changeUserRole] answers 400 and
    [createUser] sends a NULL role to its INSERT and answers 500. *)
Theorem digit_string_is_no_role (s : string) :
  s <> "" -> all_digits s = true ->
  resolve AdminAuth.ROLE_HIERARCHY (VString s) = RUndefined
  /\ resolve AdminController.ROLE_HIERARCHY (VString s) = RUndefined
  /\ (forall m i b,
         requireRole m (role_request (VString s) VUndefined i b)
         = answer denied)
  /\ (forall int4in now actor i b db,
         AdminController.changeUserRole int4in now
           (role_request actor (VString s) i b) db
         = (sendError 400 "Invalid role specified", db))
  /\ (forall now nextval actor i b db,
         AdminController.createUser now nextval
           (role_request actor (VString s) i b) db
         = (sendError 500 "Failed to create user", db)).
Proof.
  intros Hne Hd. pose proof (get_digits s Hne Hd) as Hget.
  assert (Ht : truthy (VString s) = true).
  { destruct s; [contradiction|reflexivity]. }
  split; [exact Hget|]. split; [exact Hget|]. split; [|split].
  - intros m i b. unfold requireRole. cbn [claims role_request role].
    rewrite Ht. cbn [negb resolve]. rewrite Hget. reflexivity.
  - intros int4in now actor i b db. unfold AdminController.changeUserRole.
    cbn [claims role_request role body b_role]. rewrite Ht.
    cbn [negb resolve]. rewrite same_table, Hget. reflexivity.
  - intros now nextval actor i b db. unfold AdminController.createUser.
    cbn [claims role_request role body b_role resolve].
    rewrite same_table, Hget.
    unfold Js.gt, Js.lt. cbn [to_number num_lt].
    destruct (resolve ROLE_HIERARCHY actor) as [[]| |]; reflexivity.
Qed.

Lemma digit_string_is_no_role_witness :
  resolve AdminController.ROLE_HIERARCHY (VString "3") = RUndefined
  /\ requireRole Admin
       (role_request (VString "5") VUndefined "1" Sample.no_body)
     = answer denied.
Proof.
  split.
  - apply (digit_string_is_no_role "3"); [discriminate|reflexivity].
  - apply (digit_string_is_no_role "5"); [discriminate|reflexivity].
Defined.

(** What lets a request through the gate for [m] lets it through the gate
    for every role of lower or equal rank: an Owner-only route is never
    easier to pass than an Admin route. *)
Theorem requireRole_antitone (m m' : RoleName) (req : Request) :
  role_rank m' <= role_rank m ->
  requireRole m req = next -> requireRole m' req = next.
Proof.
  intros Hle. unfold requireRole.
  destruct (claims req) as [c|]; [|discriminate].
  destruct (negb (truthy (role c))); [discriminate|]. cbv zeta.
  rewrite !get_role_key.
  destruct (resolve ROLE_HIERARCHY (role c)) as [[q| | |]| |];
    unfold Js.lt; cbn [rank_truthy to_number num_lt negb orb];
    try discriminate; try reflexivity.
  destruct (num_truthy (Fin q)); cbn [negb orb]; [|discriminate].
  destruct (Qlt_bool q (inject_Z (role_rank m))) eqn:E; [discriminate|].
  intros _.
  destruct (Qlt_bool q (inject_Z (role_rank m'))) eqn:E'; [|reflexivity].
  apply Qlt_bool_lt in E'. exfalso.
  assert (Hq : (q < inject_Z (role_rank m))%Q).
  { apply Qlt_le_trans with (inject_Z (role_rank m')); [exact E'|].
    now rewrite <- Zle_Qle. }
  apply Qlt_bool_lt in Hq. congruence.
Qed.

Lemma requireRole_antitone_witness :
  requireAdmin (Sample.request (Sample.num 5) "1" Sample.no_body) = next.
Proof.
  apply (requireRole_antitone Owner Admin).
  - simpl; lia.
  - reflexivity.
Defined.

End RoleFacts.

(** ** The admin controller: what its handlers write *)

Module AdminWriteFacts.
Import AdminController.

(** An INT parameter read from a number is that number. *)
Lemma int4_of_number_inv (n : Number) (z : Z) :
  int4_of_number n = Some z ->
  exists q, n = Fin q /\ (q == inject_Z z)%Q /\ in_INT z = true.
Proof.
  destruct n as [q| | |]; try discriminate. unfold int4_of_number.
  cbv zeta. destruct (Pos.eqb_spec (Qden (Qred q)) 1) as [Hd|]; [|discriminate].
  destruct (in_INT (Qnum (Qred q))) eqn:Hin; [|discriminate].
  cbn [andb]. intros [= <-]. exists q. split; [reflexivity|].
  split; [|exact Hin].
  rewrite <- (Qred_correct q) at 1.
  destruct (Qred q) as [a d]. cbn in *. subst d. reflexivity.
Qed.

Lemma char_length_take (n : nat) (s : string) :
  (char_length (take_chars n s) <= n)%nat.
Proof.
  revert n. induction s as [|c s IH]; intros n; [simpl; lia|].
  cbn [take_chars]. destruct (is_continuation c) eqn:E.
  - cbn [char_length]. rewrite E. apply IH.
  - destruct n as [|m]; [simpl; lia|].
    cbn [char_length]. rewrite E. specialize (IH m). lia.
Qed.

Lemma has_nul_take (n : nat) (s : string) :
  has_nul s = false -> has_nul (take_chars n s) = false.
Proof.
  revert n. induction s as [|c s IH]; intros n H; [reflexivity|].
  cbn [has_nul] in H. apply orb_false_iff in H. destruct H as [Hc Hs].
  cbn [take_chars]. destruct (is_continuation c).
  - cbn [has_nul]. now rewrite Hc, IH.
  - destruct n as [|m]; [reflexivity|]. cbn [has_nul]. now rewrite Hc, IH.
Qed.

(** What [VARCHAR(n)] stores fits the column. *)
Lemma varchar_stores_fit (n : nat) (s s' : string) :
  varchar n s = Some s' -> fits n s' = true.
Proof.
  unfold varchar. destruct (fits n s) eqn:E; [now intros [= <-]|].
  destruct (has_nul s) eqn:Hn; [discriminate|]. cbn [negb andb].
  destruct (all_spaces _); [|discriminate]. intros [= <-].
  unfold fits. rewrite (has_nul_take n s Hn). cbn [negb andb].
  apply Nat.leb_le. apply char_length_take.
Qed.

Lemma existsb_false_In {A : Type} (p : A -> bool) (l : list A) (x : A) :
  existsb p l = false -> In x l -> p x = false.
Proof.
  intros He Hin. destruct (p x) eqn:E; [|reflexivity].
  assert (Ht : existsb p l = true) by (apply existsb_exists; now exists x).
  congruence.
Qed.

(** What [INSERT_Account] returns when it returns. *)
Lemma INSERT_Account_inv (now nextval : Z) (fn ln em un ph : option string)
    (rank : Rank) (rows rows' : list Account) (row : Account) :
  INSERT_Account now nextval fn ln em un ph rank rows = Some (row, rows') ->
  rows' = (rows ++ [row])%list
  /\ int4_param rank = Some (Some (Account_Role row))
  /\ Account_ID row = nextval
  /\ Account_Status row = Some "active"
  /\ Email_Verified row = Some false
  /\ Phone_Verified row = Some false
  /\ Created_At row = Some now
  /\ (fits 255 (FirstName row) = true
      /\ fits 255 (LastName row) = true
      /\ fits 255 (Email row) = true
      /\ fits 255 (Username row) = true
      /\ fits 15 (Phone row) = true)
  /\ (forall a, In a rows ->
        Account_ID a <> Account_ID row /\ Username a <> Username row
        /\ Email a <> Email row /\ Phone a <> Phone row).
Proof.
  unfold INSERT_Account.
  destruct (int4_param rank) as [[r|]|]; try discriminate.
  destruct fn as [fn|], ln as [ln|], em as [em|], un as [un|], ph as [ph|];
    try discriminate.
  destruct (varchar 255 fn) as [fn'|] eqn:Efn; [|discriminate].
  destruct (varchar 255 ln) as [ln'|] eqn:Eln; [|discriminate].
  destruct (varchar 255 em) as [em'|] eqn:Eem; [|discriminate].
  destruct (varchar 255 un) as [un'|] eqn:Eun; [|discriminate].
  destruct (varchar 15 ph) as [ph'|] eqn:Eph; [|discriminate].
  cbv zeta. destruct (existsb _ rows) eqn:Eex; [discriminate|].
  intros [= <- <-]. cbn.
  repeat (split; [reflexivity|]).
  split.
  - repeat split; eapply varchar_stores_fit; eassumption.
  - intros a Ha. pose proof (existsb_false_In _ _ a Eex Ha) as H.
    cbn in H. repeat (apply orb_false_iff in H; destruct H as [H ?]).
    apply Z.eqb_neq in H.
    repeat split; try assumption; intros E; rewrite E in *;
      rewrite String.eqb_refl in *; discriminate.
Qed.

Section Handlers.

Variable int4in : string -> option Z.
Variable generateSaltedHash : Value -> option (string * string).
Variable now : Z.
Variable nextval : Z.

(** Whatever [createUser] answers but success, it has written nothing.
    On success it has appended one account, the one it returns: its key is
    the sequence value, it is active and unverified, each of its five
    strings is a text of at most as many characters as its column takes,
    its role is an INT that is at most the creator's rank when that rank
    is a number; no credential row is written, and the accounts that were
    there are unchanged. *)
Theorem createUser_outcome (req : Request) (db db' : Database)
    (resp : Response) :
  createUser now nextval req db = (resp, db') ->
  match resp with
  | sendError _ _ => db' = db
  | sendSuccess _ rows =>
    exists row,
      rows = [row]
      /\ Account_rows db' = (Account_rows db ++ [row])%list
      /\ Credential_rows db' = Credential_rows db
      /\ verification_rows db' = verification_rows db
      /\ Account_ID row = nextval
      /\ Account_Status row = Some "active"
      /\ Email_Verified row = Some false
      /\ Phone_Verified row = Some false
      /\ in_INT (Account_Role row) = true
      /\ fits 255 (FirstName row) = true
      /\ fits 255 (LastName row) = true
      /\ fits 255 (Email row) = true
      /\ fits 255 (Username row) = true
      /\ fits 15 (Phone row) = true
      /\ (forall c qa, claims req = Some c ->
            resolve ROLE_HIERARCHY (role c) = RNumber (Fin qa) ->
            (inject_Z (Account_Role row) <= qa)%Q)
  end.
Proof.
  unfold createUser. destruct (claims req) as [c|]; [|now intros [= <- <-]].
  cbv zeta.
  destruct (Js.gt _ _) eqn:Egt; [now intros [= <- <-]|].
  unfold createUser_insert. cbv zeta.
  destruct (INSERT_Account _ _ _ _ _ _ _ _ _) as [[row rows]|] eqn:Eins;
    [|now intros [= <- <-]].
  intros [= <- <-].
  destruct (INSERT_Account_inv _ _ _ _ _ _ _ _ _ _ _ Eins)
    as (-> & Hrole & Hid & Hst & Hev & Hpv & _ & Hlen & _).
  exists row. cbn [set_Account_Rows Account_rows Credential_rows
                   verification_rows].
  repeat (split; [first [reflexivity|assumption]|]).
  destruct (resolve ROLE_HIERARCHY (b_role (body req))) as [n| |] eqn:Et;
    try discriminate.
  cbn [int4_param] in Hrole.
  destruct (int4_of_number n) as [z|] eqn:Ez; [|discriminate].
  injection Hrole as ->.
  destruct (int4_of_number_inv n _ Ez) as (qt & -> & Hqt & Hin).
  split; [exact Hin|].
  destruct Hlen as (L1 & L2 & L3 & L4 & L5).
  repeat (split; [assumption|]).
  intros c' qa [= <-] Ha. rewrite Ha in Egt.
  unfold Js.gt, Js.lt in Egt. cbn [to_number num_lt] in Egt.
  rewrite <- Hqt. apply Qnot_lt_le. intros Hlt.
  apply Qlt_bool_lt in Hlt. congruence.
Qed.

Lemma map_where_none {A : Type} (p : A -> bool) (f : A -> A) (l : list A) :
  (List.length (filter p l) =? 0)%nat = true ->
  map (fun r => if p r then f r else r) l = l.
Proof.
  intros H. apply Nat.eqb_eq in H. apply length_zero_iff_nil in H.
  rewrite <- (map_id l) at 2. apply map_ext_in. intros r Hr.
  destruct (p r) eqn:E; [|reflexivity].
  assert (Hf : In r (filter p l)) by (apply filter_In; now split).
  rewrite H in Hf. destruct Hf.
Qed.

Lemma filter_map_where {A : Type} (p : A -> bool) (f : A -> A) (l : list A) :
  (forall a, p (f a) = p a) ->
  filter p (map (fun r => if p r then f r else r) l) = map f (filter p l).
Proof.
  intros Hp. induction l as [|a l IH]; [reflexivity|].
  cbn [map filter]. destruct (p a) eqn:Ea.
  - rewrite Hp, Ea. cbn [map]. now rewrite IH.
  - rewrite Ea. exact IH.
Qed.

Lemma set_Account_Rows_id (db : Database) :
  set_Account_Rows db (Account_rows db) = db.
Proof. now destruct db. Qed.

(** Whatever [changeUserRole] answers but success, it has written
    nothing.  On success the role it has written is one of the ranks 1
    to 5, at most the actor's rank when that rank is a number; it has
    written it, with the update time, to the accounts of the given key
    (there is one at least) and has changed nothing else. *)
Theorem changeUserRole_outcome (req : Request) (db db' : Database)
    (resp : Response) :
  changeUserRole int4in now req db = (resp, db') ->
  match resp with
  | sendError _ _ => db' = db
  | sendSuccess _ rows =>
    exists n r,
      int4in (id req) = Some n
      /\ 1 <= r <= 5
      /\ Account_rows db'
         = map (fun a => if Account_ID a =? n then set_role now r a else a)
               (Account_rows db)
      /\ rows = map (set_role now r)
                    (filter (fun a => Account_ID a =? n) (Account_rows db))
      /\ rows <> []
      /\ Credential_rows db' = Credential_rows db
      /\ verification_rows db' = verification_rows db
      /\ (forall c qa, claims req = Some c ->
            resolve ROLE_HIERARCHY (role c) = RNumber (Fin qa) ->
            (inject_Z r <= qa)%Q)
  end.
Proof.
  unfold changeUserRole. destruct (claims req) as [c|]; [|now intros [= <- <-]].
  cbv zeta. destruct (negb (truthy _)); [now intros [= <- <-]|].
  destruct (negb _ || _ || _) eqn:Echeck; [now intros [= <- <-]|].
  destruct (Js.gt _ (resolve ROLE_HIERARCHY (role c))) eqn:Egt;
    [now intros [= <- <-]|].
  unfold changeUserRole_update, update_where.
  destruct (int4_param _) as [[r|]|] eqn:Eparam;
    destruct (int4in (id req)) as [n|] eqn:Eid;
    try (now intros [= <- <-]).
  - destruct (_ =? _)%nat eqn:Ecount.
    + intros [= <- <-]. rewrite (map_where_none _ _ _ Ecount).
      apply set_Account_Rows_id.
    + intros [= <- <-]. exists n, r.
      destruct (resolve ROLE_HIERARCHY (b_role (body req))) as [k| |] eqn:Et;
        try discriminate.
      cbn [int4_param] in Eparam.
      destruct (int4_of_number k) as [z|] eqn:Ez; [|discriminate].
      injection Eparam as ->.
      destruct (int4_of_number_inv k _ Ez) as (qt & -> & Hqt & _).
      apply orb_false_iff in Echeck. destruct Echeck as [Echeck Hgt5].
      apply orb_false_iff in Echeck. destruct Echeck as [_ Hlt1].
      unfold Js.gt, Js.lt in Hlt1, Hgt5. cbn [to_number] in Hlt1, Hgt5.
      rewrite (num_lt_integers qt (inject_Z 1) r 1 Hqt (Qeq_refl _)) in Hlt1.
      rewrite (num_lt_integers (inject_Z 5) qt 5 r (Qeq_refl _) Hqt) in Hgt5.
      apply Z.ltb_ge in Hlt1, Hgt5.
      split; [reflexivity|]. split; [lia|]. split; [reflexivity|].
      split; [reflexivity|]. split.
      * intros Hnil. apply map_eq_nil in Hnil. rewrite Hnil in Ecount.
        discriminate.
      * split; [reflexivity|]. split; [reflexivity|].
        intros c' qa [= <-] Ha. rewrite Ha in Egt.
        unfold Js.gt, Js.lt in Egt. cbn [to_number num_lt] in Egt.
        rewrite <- Hqt. apply Qnot_lt_le. intros Hlt.
        apply Qlt_bool_lt in Hlt. congruence.
  - destruct (filter _ _); now intros [= <- <-].
Qed.

(** An actor role that names a member inherited from [Object.prototype]
    passes [requireAdmin], and the privilege check of [createUser] behind
    it denies no target role that is a number or resolves to a rank or to
    nothing: the request reaches the INSERT.  A target role that names an
    inherited member too is compared with the actor's as a string: it is
    answered 403 when greater, and fails in the INSERT otherwise. *)
Theorem inherited_actor_reaches_insert (k : string) (target : Value)
    (i : string) (b : Body) (db : Database) :
  In k Object_prototype ->
  let req := role_request (VString k) target i b in
  AdminAuth.requireAdmin req = next
  /\ ((forall k', resolve ROLE_HIERARCHY target <> RInherited k') ->
      route AdminAuth.requireAdmin (createUser now nextval) req db
      = createUser_insert now nextval (resolve ROLE_HIERARCHY target) req db)
  /\ (forall k', resolve ROLE_HIERARCHY target = RInherited k' ->
        route AdminAuth.requireAdmin (createUser now nextval) req db
        = if String.ltb (primitive k) (primitive k')
          then (forbidden_create, db)
          else (sendError 500 "Failed to create user", db)).
Proof.
  intros Hk. cbv zeta.
  assert (Hgate : AdminAuth.requireAdmin (role_request (VString k) target i b)
                  = next
                  /\ resolve ROLE_HIERARCHY (VString k) = RInherited k).
  { unfold Object_prototype in Hk. cbn [In] in Hk.
    repeat (destruct Hk as [<-|Hk]; [split; reflexivity|]). destruct Hk. }
  destruct Hgate as [Hgate Hactor].
  split; [exact Hgate|].
  unfold route. rewrite Hgate. unfold createUser.
  cbn [claims role_request role body b_role]. rewrite Hactor.
  unfold Js.gt, Js.lt. split.
  - intros Hnot.
    destruct (resolve ROLE_HIERARCHY target) as [n| |k'] eqn:Et;
      [reflexivity|reflexivity|].
    now destruct (Hnot k').
  - intros k' Ht. rewrite Ht.
    destruct (String.ltb (primitive k) (primitive k')); reflexivity.
Qed.

(** [deleteUser] can be repeated: once it has succeeded for a key it
    succeeds again at any later time, changing nothing but the update
    time, and at the same time it changes nothing at all. *)
Theorem deleteUser_again (req : Request) (db : Database) (later : Z) :
  fst (deleteUser int4in now req db)
  = sendSuccess "User deleted successfully" [] ->
  let db1 := snd (deleteUser int4in now req db) in
  fst (deleteUser int4in later req db1)
  = sendSuccess "User deleted successfully" []
  /\ map Account_Status (Account_rows (snd (deleteUser int4in later req db1)))
     = map Account_Status (Account_rows db1)
  /\ deleteUser int4in now req db1 = deleteUser int4in now req db.
Proof.
  unfold deleteUser, update_where.
  destruct (int4in (id req)) as [n|]; [|discriminate].
  destruct (_ =? _)%nat eqn:Ecount; [discriminate|]. intros _.
  cbn [snd fst set_Account_Rows Account_rows].
  assert (Hp : forall t a,
             (Account_ID (soft_delete t a) =? n) = (Account_ID a =? n))
    by reflexivity.
  rewrite !(filter_map_where (fun a => Account_ID a =? n) _ _ (Hp _)).
  rewrite !length_map, Ecount.
  cbn [fst snd set_Account_Rows Account_rows Credential_rows
       verification_rows].
  split; [reflexivity|]. split.
  - rewrite !map_map. apply map_ext. intros a.
    destruct (Account_ID a =? n) eqn:Ea; cbn [soft_delete Account_ID];
      rewrite ?Ea; reflexivity.
  - f_equal. unfold set_Account_Rows.
    cbn [Account_rows Credential_rows verification_rows]. f_equal.
    rewrite map_map. apply map_ext. intros a.
    destruct (Account_ID a =? n) eqn:Ea; cbn [soft_delete Account_ID];
      rewrite ?Ea; reflexivity.
Qed.

(** An account that [createUser] has made has no credential, and
    [resetUserPassword] gives it none: after the two calls the credential
    table is the one before them. *)
Theorem created_account_has_no_credential (req req' : Request)
    (db db' : Database) (resp : Response) :
  createUser now nextval req db = (resp, db') ->
  Credential_rows
    (snd (resetUserPassword int4in generateSaltedHash nextval req' db'))
  = Credential_rows db.
Proof.
  intros H.
  destruct (AdminControllerFacts.resetUserPassword_never_succeeds
              int4in generateSaltedHash nextval req' db') as [-> _].
  revert H. unfold createUser, createUser_insert.
  destruct (claims req); [|now intros [= _ <-]]. cbv zeta.
  destruct (Js.gt _ _); [now intros [= _ <-]|].
  destruct (INSERT_Account _ _ _ _ _ _ _ _ _) as [[row rows]|];
    now intros [= _ <-].
Qed.

End Handlers.

Lemma createUser_outcome_witness :
  exists row, Account_rows
                (snd (createUser 2000 2
                        (Sample.request (Sample.num 3) ""
                           (Sample.new_user (VString "Moderator")))
                        Sample.db1))
              = [Sample.alice; row]
              /\ Account_Status row = Some "active".
Proof.
  pose proof (createUser_outcome 2000 2
                (Sample.request (Sample.num 3) ""
                   (Sample.new_user (VString "Moderator")))
                Sample.db1 _ _ eq_refl) as H.
  cbv beta iota in H. destruct H as (row & _ & Hrows & _ & _ & _ & Hst & _).
  exists row. split; [exact Hrows|exact Hst].
Defined.

Lemma changeUserRole_outcome_witness :
  exists n r, Sample.int4in "1" = Some n /\ 1 <= r <= 5.
Proof.
  pose proof (changeUserRole_outcome Sample.int4in 2000
                (Sample.request (Sample.num 3) "1"
                   (Sample.new_user (VString "Moderator")))
                Sample.db1 _ _ eq_refl) as H.
  cbv beta iota in H. destruct H as (n & r & Hn & Hr & _).
  exists n, r. split; [exact Hn|exact Hr].
Defined.

Lemma inherited_actor_reaches_insert_witness :
  route AdminAuth.requireAdmin (createUser 2000 2)
    (role_request (VString "toString") (Sample.num 5) ""
       (Sample.new_user VUndefined)) Sample.db1
  = (sendSuccess "User created successfully" [Sample.bob 2 2000 5],
     {| Account_rows := [Sample.alice; Sample.bob 2 2000 5];
        Credential_rows := [Sample.alice_credential];
        verification_rows := [] |})
  /\ route AdminAuth.requireAdmin (createUser 2000 2)
       (role_request (VString "constructor") (VString "toString") ""
          (Sample.new_user VUndefined)) Sample.db1
     = (forbidden_create, Sample.db1).
Proof.
  split.
  - destruct (inherited_actor_reaches_insert 2000 2 "toString" (Sample.num 5)
                "" (Sample.new_user VUndefined) Sample.db1) as (_ & H & _).
    + unfold Object_prototype. cbn [In]. tauto.
    + rewrite H; [reflexivity|]. intros k'. discriminate.
  - destruct (inherited_actor_reaches_insert 2000 2 "constructor"
                (VString "toString") "" (Sample.new_user VUndefined)
                Sample.db1) as (_ & _ & H).
    + unfold Object_prototype. cbn [In]. tauto.
    + rewrite (H "toString"); reflexivity.
Defined.

Lemma deleteUser_again_witness :
  fst (deleteUser Sample.int4in 3000
         (Sample.request (Sample.num 3) "1" Sample.no_body)
         (snd (deleteUser Sample.int4in 2000
                 (Sample.request (Sample.num 3) "1" Sample.no_body)
                 Sample.db1)))
  = sendSuccess "User deleted successfully" [].
Proof.
  apply (deleteUser_again Sample.int4in 2000
           (Sample.request (Sample.num 3) "1" Sample.no_body) Sample.db1 3000).
  reflexivity.
Defined.

Lemma created_account_has_no_credential_witness :
  Credential_rows
    (snd (resetUserPassword Sample.int4in Sample.generateSaltedHash 2
            {| claims := Some {| role := Sample.num 3 |};
               id := "2";
               body := {| firstname := None; lastname := None; email := None;
                          username := None; phone := None;
                          b_role := VUndefined;
                          password := VString "NewPass123!" |} |}
            (snd (createUser 2000 2
                    (Sample.request (Sample.num 3) ""
                       (Sample.new_user (VString "User")))
                    Sample.db1))))
  = [Sample.alice_credential].
Proof.
  apply (created_account_has_no_credential Sample.int4in
           Sample.generateSaltedHash 2000 2
           (Sample.request (Sample.num 3) ""
              (Sample.new_user (VString "User")))
           _ Sample.db1 _ _ eq_refl).
Defined.

End AdminWriteFacts.

(** ** The admin controller: update, lookup and dashboard *)

Module AdminRestFacts.
Import AdminController AdminControllerRest.

Lemma filter_none {A : Type} (p : A -> bool) (l : list A) :
  (forall x, In x l -> p x = false) -> filter p l = [].
Proof.
  intros H. induction l as [|x l IH]; [reflexivity|].
  cbn [filter]. rewrite (H x (or_introl eq_refl)).
  apply IH. intros y Hy. apply H. now right.
Qed.

Lemma map_where_out {A : Type} (p : A -> bool) (f : A -> A) (l : list A) :
  (forall x, In x l -> p x = false) ->
  map (fun r => if p r then f r else r) l = l.
Proof.
  intros H. rewrite <- (map_id l) at 2. apply map_ext_in.
  intros x Hx. now rewrite (H x Hx).
Qed.

Lemma varchar_fits (n : nat) (s : string) :
  fits n s = true -> varchar n s = Some s.
Proof. intros H. unfold varchar. now rewrite H. Qed.

Lemma varchar_param_inv (n : nat) (v : option string) (s : string) :
  varchar_param n v = Some (Some s) ->
  exists s0, v = Some s0 /\ varchar n s0 = Some s.
Proof.
  destruct v as [s0|]; [|discriminate]. unfold varchar_param.
  destruct (varchar n s0) as [s'|] eqn:E; [|discriminate].
  cbn [option_map]. intros [= <-]. now exists s0.
Qed.

(** A column stays free of duplicates under an update that leaves each
    value as it was or sets it to [v], when [v] ends up at most once. *)
Lemma NoDup_map_update {A : Type} (col : A -> string) (g : A -> A)
    (v : string) (l : list A) :
  (forall a, col (g a) = col a \/ col (g a) = v) ->
  (List.length (filter (fun a => String.eqb (col a) v) (map g l)) <= 1)%nat ->
  NoDup (map col l) -> NoDup (map col (map g l)).
Proof.
  intros Hg. induction l as [|a l IH]; [intros _ _; constructor|].
  cbn [map filter]. intros Hcount Hnd.
  apply NoDup_cons_iff in Hnd. destruct Hnd as [Hnotin Hnd].
  assert (Htail : (List.length (filter (fun a => String.eqb (col a) v)
                                       (map g l)) <= 1)%nat).
  { destruct (String.eqb (col (g a)) v); cbn [List.length] in Hcount; lia. }
  constructor; [|now apply IH].
  intros Hin. apply in_map_iff in Hin. destruct Hin as (gb & Hcol & Hgb).
  apply in_map_iff in Hgb. destruct Hgb as (b & <- & Hb).
  assert (Hv : col (g a) = v -> False).
  { intros Ha. rewrite Ha, String.eqb_refl in Hcount.
    cbn [List.length] in Hcount.
    assert (Hf : In (g b) (filter (fun a => String.eqb (col a) v) (map g l))).
    { apply filter_In. split; [now apply in_map|].
      rewrite Hcol, Ha. apply String.eqb_refl. }
    destruct (filter _ (map g l)); [destruct Hf|cbn in Hcount; lia]. }
  destruct (Hg a) as [Ha|Ha]; [|now apply Hv].
  destruct (Hg b) as [Hb'|Hb'].
  - apply Hnotin. apply in_map_iff. exists b. split; [congruence|exact Hb].
  - apply Hv. congruence.
Qed.

Lemma map_col_where {B : Type} (col : Account -> B) (p : Account -> bool)
    (f : Account -> Account) (l : list Account) :
  (forall a, col (f a) = col a) ->
  map col (map (fun a => if p a then f a else a) l) = map col l.
Proof.
  intros H. rewrite map_map. apply map_ext. intros a.
  destruct (p a); [apply H|reflexivity].
Qed.

Section Handlers.

Variable int4in : string -> option Z.
Variable now : Z.

(** What [UPDATE_Account] returns when it returns: nothing for a key
    that no account has, and otherwise the updated rows. *)
Lemma UPDATE_Account_inv (fn ln em un ph : option string) (rank : Rank)
    (i : string) (rows returned rows' : list Account) :
  UPDATE_Account int4in now fn ln em un ph rank i rows
  = Some (returned, rows') ->
  exists n,
    int4in i = Some n
    /\ ((filter (fun a => Account_ID a =? n) rows = []
         /\ returned = [] /\ rows' = rows)
        \/ exists fn' ln' em' un' ph' r,
             varchar_param 255 fn = Some (Some fn')
             /\ varchar_param 255 ln = Some (Some ln')
             /\ varchar_param 255 em = Some (Some em')
             /\ varchar_param 255 un = Some (Some un')
             /\ varchar_param 15 ph = Some (Some ph')
             /\ int4_param rank = Some (Some r)
             /\ filter (fun a => Account_ID a =? n) rows <> []
             /\ returned
                = map (set_profile now fn' ln' em' un' ph' r)
                      (filter (fun a => Account_ID a =? n) rows)
             /\ rows'
                = map (fun a => if Account_ID a =? n
                                then set_profile now fn' ln' em' un' ph' r a
                                else a) rows
             /\ occurrences Username un' rows' = 1%nat
             /\ occurrences Email em' rows' = 1%nat
             /\ occurrences Phone ph' rows' = 1%nat).
Proof.
  unfold UPDATE_Account.
  destruct (int4_param rank) as [r|]; [|discriminate].
  destruct (int4in i) as [n|]; [|discriminate].
  destruct (varchar_param 255 fn) as [fn'|]; [|discriminate].
  destruct (varchar_param 255 ln) as [ln'|]; [|discriminate].
  destruct (varchar_param 255 em) as [em'|]; [|discriminate].
  destruct (varchar_param 255 un) as [un'|]; [|discriminate].
  destruct (varchar_param 15 ph) as [ph'|]; [|discriminate].
  intros H. exists n. split; [reflexivity|].
  destruct (filter (fun a => Account_ID a =? n) rows) as [|h hit] eqn:Ehit.
  - left. injection H as <- <-. now repeat split.
  - right.
    destruct fn' as [fn'|], ln' as [ln'|], em' as [em'|], un' as [un'|],
             ph' as [ph'|], r as [r|]; try discriminate.
    cbv zeta in H.
    destruct (_ =? 1)%nat eqn:E1; [|discriminate].
    destruct (_ =? 1)%nat eqn:E2 in H; [|discriminate].
    destruct (_ =? 1)%nat eqn:E3 in H; [|discriminate].
    cbn [andb] in H. injection H as <- <-.
    exists fn', ln', em', un', ph', r.
    apply Nat.eqb_eq in E1, E2, E3.
    repeat (split; [first [reflexivity|assumption|discriminate]|]).
    assumption.
Qed.

(** Whatever [updateUser] answers but success, it has written nothing.
    On success it returns one account, of the given key; keys, statuses
    and the accounts of other keys are as they were, and so are the
    credential and verification tables. *)
Theorem updateUser_outcome (req : Request) (db db' : Database)
    (resp : Response) :
  updateUser int4in now req db = (resp, db') ->
  match resp with
  | sendError _ _ => db' = db
  | sendSuccess _ rows =>
    exists n row,
      int4in (id req) = Some n
      /\ rows = [row]
      /\ In row (Account_rows db')
      /\ Account_ID row = n
      /\ in_INT (Account_Role row) = true
      /\ map Account_ID (Account_rows db') = map Account_ID (Account_rows db)
      /\ map Account_Status (Account_rows db')
         = map Account_Status (Account_rows db)
      /\ (forall a, In a (Account_rows db) -> Account_ID a <> n ->
                    In a (Account_rows db'))
      /\ Credential_rows db' = Credential_rows db
      /\ verification_rows db' = verification_rows db
  end.
Proof.
  unfold updateUser. cbv zeta.
  destruct (UPDATE_Account _ _ _ _ _ _ _ _ _ _) as [[returned rows']|] eqn:E;
    [|now intros [= <- <-]].
  destruct (UPDATE_Account_inv _ _ _ _ _ _ _ _ _ _ E) as (n & Hid & [H|H]).
  - destruct H as (_ & -> & ->). cbn. intros [= <- <-].
    now destruct db.
  - destruct H as (fn & ln & em & un & ph & r & _ & _ & _ & _ & _ & Hr
                   & Hne & -> & -> & _).
    destruct (filter (fun a => Account_ID a =? n) (Account_rows db))
      as [|h hit] eqn:Ehit; [contradiction|].
    cbn [map List.length Nat.eqb firstn]. intros [= <- <-].
    assert (Hh : In h (Account_rows db) /\ (Account_ID h =? n) = true).
    { apply (filter_In (fun a => Account_ID a =? n)).
      rewrite Ehit. now left. }
    destruct Hh as [Hh Hhn].
    exists n, (set_profile now fn ln em un ph r h).
    cbn [set_Account_Rows Account_rows Credential_rows verification_rows].
    split; [exact Hid|]. split; [reflexivity|]. split.
    { apply in_map_iff. exists h. split; [now rewrite Hhn|exact Hh]. }
    split; [now apply Z.eqb_eq|]. split.
    { cbn. destruct (resolve ROLE_HIERARCHY (b_role (body req))) as [k| |];
        try discriminate.
      cbn [int4_param] in Hr.
      destruct (int4_of_number k) as [z|] eqn:Ez; [|discriminate].
      injection Hr as <-.
      now destruct (AdminWriteFacts.int4_of_number_inv k z Ez) as (_ & _ & _ & ?). }
    split.
    { rewrite map_map. apply map_ext. intros a.
      now destruct (Account_ID a =? n). }
    split.
    { rewrite map_map. apply map_ext. intros a.
      now destruct (Account_ID a =? n). }
    split; [|now split].
    intros a Ha Hna. apply in_map_iff. exists a.
    split; [|exact Ha]. now rewrite (proj2 (Z.eqb_neq _ _) Hna).
Qed.

(** [updateUser] compares no ranks and reads no claims: whoever sends the
    request, an existing account is given the role of the body, any of
    the five, together with the five strings of the body when each is a
    text (it holds no U+0000) of at most as many characters as its column
    takes and no other account holds them. *)
Theorem updateUser_compares_no_rank
    (who : option Claims) (i : string) (b : Body) (db : Database)
    (n t : Z) (pre post : list Account) (a : Account)
    (fn ln em un ph : string) :
  int4in i = Some n ->
  Account_rows db = (pre ++ a :: post)%list ->
  Account_ID a = n ->
  (forall x, In x (pre ++ post) ->
             Account_ID x <> n /\ Username x <> un /\ Email x <> em
             /\ Phone x <> ph) ->
  firstname b = Some fn -> lastname b = Some ln -> email b = Some em ->
  username b = Some un -> phone b = Some ph ->
  fits 255 fn = true -> fits 255 ln = true -> fits 255 em = true ->
  fits 255 un = true -> fits 15 ph = true ->
  recognized ROLE_HIERARCHY (b_role b) t ->
  updateUser int4in now {| claims := who; id := i; body := b |} db
  = (sendSuccess "User updated successfully"
       [set_profile now fn ln em un ph t a],
     set_Account_Rows db
       (pre ++ set_profile now fn ln em un ph t a :: post)%list).
Proof.
  intros Hid Hrows Ha Hothers Hfn Hln Hem Hun Hph Lfn Lln Lem Lun Lph Hrec.
  destruct Hrec as [(q & Hres & Hq) Ht].
  assert (Hpre : forall x, In x pre -> (Account_ID x =? n) = false).
  { intros x Hx. apply Z.eqb_neq. apply Hothers. apply in_or_app. now left. }
  assert (Hpost : forall x, In x post -> (Account_ID x =? n) = false).
  { intros x Hx. apply Z.eqb_neq. apply Hothers. apply in_or_app. now right. }
  assert (Hocc : forall (col : Account -> string) (v : string),
             (forall x, In x (pre ++ post) -> col x <> v) ->
             col (set_profile now fn ln em un ph t a) = v ->
             occurrences col v
               (pre ++ set_profile now fn ln em un ph t a :: post) = 1%nat).
  { intros col v Hne Hv. unfold occurrences.
    rewrite filter_app. cbn [filter]. rewrite Hv, String.eqb_refl.
    rewrite !filter_none; [reflexivity| |].
    - intros x Hx. apply String.eqb_neq. apply Hne. apply in_or_app. now right.
    - intros x Hx. apply String.eqb_neq. apply Hne. apply in_or_app. now left. }
  unfold updateUser, UPDATE_Account. cbv zeta. cbn [body id].
  rewrite Hres. cbn [int4_param].
  rewrite (AdminControllerFacts.int4_of_number_integer q t Hq
             (AdminControllerFacts.in_INT_rank t Ht)).
  cbn [option_map]. rewrite Hid, Hfn, Hln, Hem, Hun, Hph.
  unfold varchar_param.
  rewrite !varchar_fits by assumption. cbn [option_map].
  rewrite Hrows, filter_app. cbn [filter].
  rewrite (proj2 (Z.eqb_eq _ _) Ha).
  rewrite (filter_none _ pre Hpre), (filter_none _ post Hpost).
  cbn [app]. rewrite map_app. cbn [map].
  rewrite (proj2 (Z.eqb_eq _ _) Ha).
  rewrite (map_where_out _ _ pre Hpre), (map_where_out _ _ post Hpost).
  rewrite !Hocc; try reflexivity;
    try (intros x Hx; now apply Hothers).
Qed.

(** [updateUser] is no partial update: when one of the five strings is
    absent from the body, or the role resolves to nothing, it never
    answers success and writes nothing. *)
Theorem updateUser_needs_every_field (req : Request) (db : Database) :
  firstname (body req) = None \/ lastname (body req) = None
  \/ email (body req) = None \/ username (body req) = None
  \/ phone (body req) = None
  \/ resolve ROLE_HIERARCHY (b_role (body req)) = RUndefined ->
  snd (updateUser int4in now req db) = db
  /\ exists status message,
       fst (updateUser int4in now req db) = sendError status message.
Proof.
  intros H. unfold updateUser. cbv zeta.
  destruct (UPDATE_Account _ _ _ _ _ _ _ _ _ _) as [[returned rows']|] eqn:Eu;
    [|split; [reflexivity|now eexists; eexists]].
  destruct (UPDATE_Account_inv _ _ _ _ _ _ _ _ _ _ Eu) as (n & _ & [Hu|Hu]).
  - destruct Hu as (_ & -> & ->). cbn. split; [now destruct db|].
    now eexists; eexists.
  - exfalso.
    destruct Hu as (fn & ln & em & un & ph & r & Hfn & Hln & Hem & Hun & Hph
                    & Hr & _).
    destruct H as [H|[H|[H|[H|[H|H]]]]]; rewrite H in *; discriminate.
Qed.

Variable nextval : Z.

(** An account that [createUser] has made is the one [getUserById] returns
    for the key the sequence gave it. *)
Theorem getUserById_after_createUser (req req' : Request)
    (db db' : Database) (message : string) (rows : list Account) :
  createUser now nextval req db = (sendSuccess message rows, db') ->
  int4in (id req') = Some nextval ->
  exists row, rows = [row] /\ getUserById int4in req' db' = user row.
Proof.
  unfold createUser, createUser_insert.
  destruct (claims req); [|discriminate]. cbv zeta.
  destruct (Js.gt _ _); [discriminate|].
  destruct (INSERT_Account _ _ _ _ _ _ _ _ _) as [[row rows0]|] eqn:E;
    [|discriminate].
  intros [= <- <- <-] Hid. exists row. split; [reflexivity|].
  destruct (AdminWriteFacts.INSERT_Account_inv _ _ _ _ _ _ _ _ _ _ _ E)
    as (-> & _ & Hrow & _ & _ & _ & _ & _ & Hfresh).
  unfold getUserById. rewrite Hid.
  cbn [set_Account_Rows Account_rows]. rewrite filter_app.
  rewrite filter_none.
  - cbn [filter app]. now rewrite Hrow, Z.eqb_refl.
  - intros x Hx. apply Z.eqb_neq. rewrite <- Hrow. now apply Hfresh.
Qed.

(** A soft-deleted account is still found: after a [deleteUser] that
    succeeded, [getUserById] returns an account of that key, whose status
    is 'inactive'. *)
Theorem getUserById_after_deleteUser (req : Request) (db : Database) :
  fst (deleteUser int4in now req db)
  = sendSuccess "User deleted successfully" [] ->
  exists row,
    getUserById int4in req (snd (deleteUser int4in now req db)) = user row
    /\ int4in (id req) = Some (Account_ID row)
    /\ Account_Status row = Some "inactive".
Proof.
  unfold deleteUser, update_where, getUserById.
  destruct (int4in (id req)) as [n|]; [|discriminate].
  destruct (_ =? _)%nat eqn:Ecount; [discriminate|]. intros _.
  cbn [snd set_Account_Rows Account_rows].
  rewrite (AdminWriteFacts.filter_map_where (fun a => Account_ID a =? n)
             (soft_delete now)) by reflexivity.
  destruct (filter (fun a => Account_ID a =? n) (Account_rows db))
    as [|h hit] eqn:Ehit; [discriminate|].
  cbn [map]. exists (soft_delete now h). split; [reflexivity|].
  split; [|reflexivity].
  assert (Hh : In h (filter (fun a => Account_ID a =? n) (Account_rows db)))
    by (rewrite Ehit; now left).
  apply filter_In in Hh. destruct Hh as [_ Hh]. apply Z.eqb_eq in Hh.
  cbn. now rewrite Hh.
Qed.

(** The four handlers that write to [Account] keep its key and its unique
    columns free of duplicates. *)
Theorem handlers_keep_Account_unique (req : Request) (db : Database) :
  Account_unique (Account_rows db) ->
  Account_unique (Account_rows (snd (createUser now nextval req db)))
  /\ Account_unique (Account_rows (snd (deleteUser int4in now req db)))
  /\ Account_unique (Account_rows (snd (changeUserRole int4in now req db)))
  /\ Account_unique (Account_rows (snd (updateUser int4in now req db))).
Proof.
  intros Hu.
  assert (Hsame : forall (p : Account -> bool) (f : Account -> Account),
             (forall a, Account_ID (f a) = Account_ID a) ->
             (forall a, Username (f a) = Username a) ->
             (forall a, Email (f a) = Email a) ->
             (forall a, Phone (f a) = Phone a) ->
             Account_unique
               (map (fun a => if p a then f a else a) (Account_rows db))).
  { intros p f H1 H2 H3 H4. destruct Hu as (U1 & U2 & U3 & U4).
    unfold Account_unique.
    rewrite (map_col_where Account_ID p f _ H1),
            (map_col_where Username p f _ H2),
            (map_col_where Email p f _ H3),
            (map_col_where Phone p f _ H4).
    now repeat split. }
  split; [|split; [|split]].
  - unfold createUser, createUser_insert.
    destruct (claims req); [|exact Hu]. cbv zeta.
    destruct (Js.gt _ _); [exact Hu|].
    destruct (INSERT_Account _ _ _ _ _ _ _ _ _) as [[row rows0]|] eqn:E;
      [|exact Hu].
    destruct (AdminWriteFacts.INSERT_Account_inv _ _ _ _ _ _ _ _ _ _ _ E)
      as (-> & _ & _ & _ & _ & _ & _ & _ & Hfresh).
    cbn [snd set_Account_Rows Account_rows].
    destruct Hu as (U1 & U2 & U3 & U4). unfold Account_unique.
    rewrite !map_app. cbn [map].
    assert (Hadd : forall (B : Type) (col : Account -> B),
               NoDup (map col (Account_rows db)) ->
               (forall a, In a (Account_rows db) -> col a <> col row) ->
               NoDup (map col (Account_rows db) ++ [col row])).
    { intros B col Hnd Hne. apply NoDup_app; [exact Hnd|repeat constructor; auto|].
      intros x Hx [<-|[]]. apply in_map_iff in Hx.
      destruct Hx as (a & Ha & Hin). now apply (Hne a Hin). }
    repeat split; apply Hadd; try assumption; intros a Ha; now apply Hfresh.
  - unfold deleteUser, update_where.
    destruct (int4in (id req)) as [n|]; [|exact Hu].
    destruct (_ =? _)%nat; cbn [snd set_Account_Rows Account_rows];
      now apply Hsame.
  - unfold changeUserRole.
    destruct (claims req); [|exact Hu]. cbv zeta.
    destruct (negb (truthy _)); [exact Hu|].
    destruct (negb _ || _ || _); [exact Hu|].
    destruct (Js.gt _ _); [exact Hu|].
    unfold changeUserRole_update, update_where.
    destruct (int4_param _) as [[r|]|]; destruct (int4in (id req)) as [n|];
      try exact Hu.
    + destruct (_ =? _)%nat; cbn [snd set_Account_Rows Account_rows];
        now apply Hsame.
    + now destruct (filter _ _).
  - unfold updateUser. cbv zeta.
    destruct (UPDATE_Account _ _ _ _ _ _ _ _ _ _) as [[returned rows']|] eqn:E;
      [|exact Hu].
    destruct (UPDATE_Account_inv _ _ _ _ _ _ _ _ _ _ E) as (n & _ & [H|H]).
    + destruct H as (_ & -> & ->). exact Hu.
    + destruct H as (fn & ln & em & un & ph & r & _ & _ & _ & _ & _ & _ & _
                     & _ & -> & O1 & O2 & O3).
      destruct (_ =? _)%nat; cbn [snd set_Account_Rows Account_rows];
        destruct Hu as (U1 & U2 & U3 & U4); unfold Account_unique;
        (split; [|split; [|split]]).
      all: try (rewrite (map_col_where Account_ID); [exact U1|reflexivity]).
      all: try (apply (NoDup_map_update Username _ un);
                [intros a; destruct (Account_ID a =? n); auto
                |unfold occurrences in O1; rewrite O1; lia|exact U2]).
      all: try (apply (NoDup_map_update Email _ em);
                [intros a; destruct (Account_ID a =? n); auto
                |unfold occurrences in O2; rewrite O2; lia|exact U3]).
      all: apply (NoDup_map_update Phone _ ph);
        [intros a; destruct (Account_ID a =? n); auto
        |unfold occurrences in O3; rewrite O3; lia|exact U4].
Qed.

(** The dashboard after a [createUser] that succeeded: one more user, one
    more active user, as many inactive ones. *)
Theorem dashboard_after_createUser (req req' : Request) (db db' : Database)
    (message : string) (rows : list Account) (m : string) (t a i : nat) :
  createUser now nextval req db = (sendSuccess message rows, db') ->
  getDashboardStats req' db = stats m t a i ->
  getDashboardStats req' db' = stats m (S t) (S a) i.
Proof.
  unfold createUser, createUser_insert.
  destruct (claims req); [|discriminate]. cbv zeta.
  destruct (Js.gt _ _); [discriminate|].
  destruct (INSERT_Account _ _ _ _ _ _ _ _ _) as [[row rows0]|] eqn:E;
    [|discriminate].
  intros [= <- <- <-].
  destruct (AdminWriteFacts.INSERT_Account_inv _ _ _ _ _ _ _ _ _ _ _ E)
    as (-> & _ & _ & Hst & _).
  unfold getDashboardStats. intros [= <- <- <- <-].
  cbn [set_Account_Rows Account_rows].
  rewrite !filter_app, !length_app. cbn [filter].
  unfold status_is. rewrite Hst. cbn. f_equal; lia.
Qed.

(** Counting a status before and after the rows of key [n] are
    soft-deleted. *)
Lemma count_after_soft_delete (n : Z) (l : list Account) :
  let l' := map (fun r => if Account_ID r =? n then soft_delete now r else r) l in
  (List.length (filter (status_is "active") l')
   + List.length (filter (fun x => (Account_ID x =? n)%Z
                                   && status_is "active" x) l)
   = List.length (filter (status_is "active") l))%nat
  /\ (List.length (filter (status_is "inactive") l')
      = List.length (filter (status_is "inactive") l)
        + List.length (filter (fun x => (Account_ID x =? n)%Z
                                        && negb (status_is "inactive" x)) l))%nat.
Proof.
  induction l as [|x l [IH1 IH2]]; [now split|].
  cbn [map filter]. cbv zeta in IH1, IH2.
  destruct (Account_ID x =? n) eqn:Ex; cbn [andb].
  - change (status_is "active" (soft_delete now x)) with false.
    change (status_is "inactive" (soft_delete now x)) with true.
    destruct (status_is "active" x), (status_is "inactive" x);
      cbn [negb List.length]; split; lia.
  - destruct (status_is "active" x), (status_is "inactive" x);
      cbn [List.length]; split; lia.
Qed.

(** The dashboard after a [deleteUser]: as many users as before (a
    soft-deleted account still counts); the accounts of the key that were
    active leave the active count, and those that were not inactive yet
    join the inactive count. *)
Theorem dashboard_after_deleteUser (req req' : Request) (db : Database)
    (n : Z) (m : string) (t a i : nat) :
  int4in (id req) = Some n ->
  getDashboardStats req' db = stats m t a i ->
  getDashboardStats req' (snd (deleteUser int4in now req db))
  = stats m t
      (a - List.length (filter (fun x => (Account_ID x =? n)%Z
                                         && status_is "active" x)
                               (Account_rows db)))%nat
      (i + List.length (filter (fun x => (Account_ID x =? n)%Z
                                         && negb (status_is "inactive" x))
                               (Account_rows db)))%nat.
Proof.
  intros Hid. unfold getDashboardStats. intros [= <- <- <- <-].
  assert (Hrows : Account_rows (snd (deleteUser int4in now req db))
                  = map (fun r => if Account_ID r =? n
                                  then soft_delete now r else r)
                        (Account_rows db)).
  { unfold deleteUser, update_where. rewrite Hid.
    now destruct (_ =? _)%nat. }
  rewrite Hrows, length_map.
  destruct (count_after_soft_delete n (Account_rows db)) as [H1 H2].
  cbv zeta in H1, H2. f_equal; lia.
Qed.

End Handlers.

Lemma updateUser_compares_no_rank_witness :
  updateUser Sample.int4in 2000
    {| claims := Some {| role := Sample.num 3 |};
       id := "1";
       body := Sample.new_user (VString "Owner") |}
    Sample.db1
  = (sendSuccess "User updated successfully"
       [set_profile 2000 "Bob" "Stone" "bob@example.org" "bob" "2535550101"
          5 Sample.alice],
     set_Account_Rows Sample.db1
       [set_profile 2000 "Bob" "Stone" "bob@example.org" "bob" "2535550101"
          5 Sample.alice]).
Proof.
  apply (updateUser_compares_no_rank Sample.int4in 2000
           (Some {| role := Sample.num 3 |}) "1"
           (Sample.new_user (VString "Owner")) Sample.db1 1 5 [] []
           Sample.alice "Bob" "Stone" "bob@example.org" "bob" "2535550101");
    try reflexivity; try (cbn; lia).
  all: try (intros x Hx; destruct Hx).
  all: apply (recognized_name Owner).
Defined.

Lemma updateUser_outcome_witness :
  exists n row, Sample.int4in "1" = Some n /\ Account_ID row = n.
Proof.
  pose proof (updateUser_outcome Sample.int4in 2000
                {| claims := None; id := "1";
                   body := Sample.new_user (VString "Owner") |}
                Sample.db1 _ _ eq_refl) as H.
  cbv beta iota in H. destruct H as (n & row & Hn & _ & _ & Hrow & _).
  exists n, row. split; [exact Hn|exact Hrow].
Defined.

Lemma updateUser_needs_every_field_witness :
  snd (updateUser Sample.int4in 2000
         (Sample.request (Sample.num 3) "1" Sample.no_body) Sample.db1)
  = Sample.db1.
Proof.
  apply (updateUser_needs_every_field Sample.int4in 2000
           (Sample.request (Sample.num 3) "1" Sample.no_body) Sample.db1).
  left. reflexivity.
Defined.

Lemma getUserById_after_createUser_witness :
  exists row,
    getUserById Sample.int4in
      (Sample.request (Sample.num 3) "2" Sample.no_body)
      (snd (createUser 2000 2
              (Sample.request (Sample.num 3) ""
                 (Sample.new_user (VString "User")))
              Sample.db1))
    = user row.
Proof.
  destruct (getUserById_after_createUser Sample.int4in 2000 2
              (Sample.request (Sample.num 3) ""
                 (Sample.new_user (VString "User")))
              (Sample.request (Sample.num 3) "2" Sample.no_body)
              Sample.db1 _ _ _ eq_refl eq_refl) as (row & _ & H).
  exists row. exact H.
Defined.

Lemma getUserById_after_deleteUser_witness :
  exists row,
    getUserById Sample.int4in
      (Sample.request (Sample.num 3) "1" Sample.no_body)
      (snd (deleteUser Sample.int4in 2000
              (Sample.request (Sample.num 3) "1" Sample.no_body) Sample.db1))
    = user row
    /\ Account_Status row = Some "inactive".
Proof.
  destruct (getUserById_after_deleteUser Sample.int4in 2000
              (Sample.request (Sample.num 3) "1" Sample.no_body) Sample.db1
              eq_refl) as (row & H & _ & Hst).
  exists row. split; [exact H|exact Hst].
Defined.

Lemma handlers_keep_Account_unique_witness :
  Account_unique
    (Account_rows
       (snd (createUser 2000 2
               (Sample.request (Sample.num 3) ""
                  (Sample.new_user (VString "User")))
               Sample.db1))).
Proof.
  apply (handlers_keep_Account_unique Sample.int4in 2000 2
           (Sample.request (Sample.num 3) ""
              (Sample.new_user (VString "User"))) Sample.db1).
  unfold Account_unique. cbn.
  repeat split; repeat constructor; intros [].
Defined.

Lemma dashboard_after_createUser_witness :
  getDashboardStats (Sample.request (Sample.num 3) "" Sample.no_body)
    (snd (createUser 2000 2
            (Sample.request (Sample.num 3) ""
               (Sample.new_user (VString "User")))
            Sample.db1))
  = stats "Dashboard statistics fetched" 2 2 0.
Proof.
  apply (dashboard_after_createUser 2000 2
           (Sample.request (Sample.num 3) ""
              (Sample.new_user (VString "User")))
           _ Sample.db1 _ _ _ _ 1%nat 1%nat 0%nat eq_refl).
  reflexivity.
Defined.

Lemma dashboard_after_deleteUser_witness :
  getDashboardStats (Sample.request (Sample.num 3) "" Sample.no_body)
    (snd (deleteUser Sample.int4in 2000
            (Sample.request (Sample.num 3) "1" Sample.no_body) Sample.db1))
  = stats "Dashboard statistics fetched" 1 0 1.
Proof.
  apply (dashboard_after_deleteUser Sample.int4in 2000
           (Sample.request (Sample.num 3) "1" Sample.no_body)
           _ Sample.db1 1 _ 1%nat 1%nat 0%nat eq_refl).
  reflexivity.
Defined.

End AdminRestFacts.

(** ** The environment *)

Module EnvConfigFacts.
Import EnvConfig.

Lemma present_set_other (env : Env) (k d key : string) :
  k <> key -> present (set k d env) key = present env key.
Proof.
  intros Hne. unfold present, set. cbn [lookup].
  now rewrite (proj2 (String.eqb_neq _ _) Hne).
Qed.

Lemma lookup_set_default_other (env : Env) (k d key : string) :
  k <> key -> lookup (set_default env (k, d)) key = lookup env key.
Proof.
  intros Hne. unfold set_default. destruct (negb (present env k));
    [|reflexivity].
  unfold set. cbn [lookup]. now rewrite (proj2 (String.eqb_neq _ _) Hne).
Qed.

(** The defaults touch no variable they do not name. *)
Lemma defaults_other (opts : list (string * string)) (env : Env)
    (key : string) :
  ~ In key (map fst opts) ->
  lookup (fold_left set_default opts env) key = lookup env key.
Proof.
  revert env. induction opts as [|[k d] opts IH]; intros env Hnot;
    [reflexivity|].
  cbn [fold_left]. rewrite IH.
  - apply lookup_set_default_other. intros ->. apply Hnot. now left.
  - intros Hin. apply Hnot. now right.
Qed.

(** The defaults leave a variable that is present as it is. *)
Lemma defaults_keep (opts : list (string * string)) (env : Env)
    (key : string) :
  present env key = true ->
  lookup (fold_left set_default opts env) key = lookup env key.
Proof.
  revert env. induction opts as [|[k d] opts IH]; intros env Hp;
    [reflexivity|].
  cbn [fold_left].
  destruct (String.eqb_spec k key) as [->|Hne].
  - unfold set_default. rewrite Hp. cbn [negb]. now apply IH.
  - rewrite IH.
    + now apply lookup_set_default_other.
    + unfold present. rewrite (lookup_set_default_other env k d key Hne).
      exact Hp.
Qed.

(** A variable that is not present gets the default declared for it. *)
Lemma defaults_fill (opts : list (string * string)) (env : Env)
    (key d : string) :
  NoDup (map fst opts) -> In (key, d) opts -> present env key = false ->
  lookup (fold_left set_default opts env) key = Some d.
Proof.
  revert env. induction opts as [|[k d0] opts IH]; intros env Hnd Hin Hp;
    [destruct Hin|].
  cbn [map fst] in Hnd. apply NoDup_cons_iff in Hnd.
  destruct Hnd as [Hk Hnd]. cbn [fold_left].
  destruct Hin as [[= -> ->]|Hin].
  - rewrite defaults_other by exact Hk.
    unfold set_default. rewrite Hp. cbn [negb]. unfold set. cbn [lookup].
    now rewrite String.eqb_refl.
  - assert (Hne : k <> key).
    { intros ->. apply Hk. apply in_map_iff. now exists (key, d). }
    apply IH; [exact Hnd|exact Hin|].
    unfold present. now rewrite (lookup_set_default_other env k d0 key Hne).
Qed.

(** Where every variable they name is present, the defaults change
    nothing. *)
Lemma defaults_nothing (opts : list (string * string)) (env : Env) :
  (forall key, In key (map fst opts) -> present env key = true) ->
  fold_left set_default opts env = env.
Proof.
  induction opts as [|[k d] opts IH]; intros H; [reflexivity|].
  cbn [fold_left]. unfold set_default at 2.
  rewrite (H k (or_introl eq_refl)). cbn [negb].
  apply IH. intros key Hkey. apply H. now right.
Qed.

Lemma missing_nil (env : Env) :
  missing env = [] <->
  forall key, In key requiredEnvVars -> present env key = true.
Proof.
  unfold missing. split.
  - intros H key Hkey. destruct (present env key) eqn:E; [reflexivity|].
    assert (Hf : In key (filter (fun k => negb (present env k))
                                requiredEnvVars))
      by (apply filter_In; split; [exact Hkey|now rewrite E]).
    rewrite H in Hf. destruct Hf.
  - intros H. apply AdminRestFacts.filter_none.
    intros key Hkey. now rewrite (H key Hkey).
Qed.

Lemma validateEnv_inr (env env' : Env) :
  validateEnv env = inr env' ->
  missing env = [] /\ env' = fold_left set_default optionalEnvVars env.
Proof.
  unfold validateEnv. destruct (missing env) as [|k l]; cbn.
  - now intros [= <-].
  - discriminate.
Qed.

Lemma optional_keys_NoDup : NoDup (map fst optionalEnvVars).
Proof. cbn. repeat constructor; cbn; intuition discriminate. Qed.

Lemma validateEnv_present (env env' : Env) :
  validateEnv env = inr env' ->
  forall key,
    In key requiredEnvVars \/ In key (map fst optionalEnvVars) ->
    present env' key = true.
Proof.
  intros H key Hkey. destruct (validateEnv_inr env env' H) as [Hmiss ->].
  destruct (present env key) eqn:Ep.
  - unfold present. rewrite defaults_keep by exact Ep. exact Ep.
  - destruct Hkey as [Hreq|Hopt].
    + rewrite (proj1 (missing_nil env) Hmiss key Hreq) in Ep. discriminate.
    + apply in_map_iff in Hopt. destruct Hopt as ([k d] & <- & Hin).
      unfold present. cbn [fst] in *.
      rewrite (defaults_fill _ _ k d optional_keys_NoDup Hin Ep).
      unfold optionalEnvVars in Hin. cbn [In] in Hin.
      repeat (destruct Hin as [[= <- <-]|Hin]; [reflexivity|]).
      destruct Hin.
Qed.

(** [validateEnv] returns exactly when each required variable is set to a
    non-empty value; otherwise it throws, and its message names the
    required variables that are unset or empty, in the order they are
    declared. *)
Theorem validateEnv_throws_iff (env : Env) :
  ((exists env', validateEnv env = inr env') <->
   forall key, In key requiredEnvVars -> present env key = true)
  /\ (forall message, validateEnv env = inl message ->
        message = "Missing required environment variables: "
                  ++ join ", " (filter (fun key => negb (present env key))
                                       requiredEnvVars)
        /\ exists key, In key requiredEnvVars /\ present env key = false).
Proof.
  split.
  - rewrite <- missing_nil. unfold validateEnv.
    destruct (missing env) as [|k l]; cbn; split.
    + reflexivity.
    + intros _. now eexists.
    + intros [env' H]. discriminate.
    + discriminate.
  - intros message. unfold validateEnv.
    change (filter (fun key => negb (present env key)) requiredEnvVars)
      with (missing env).
    destruct (missing env) as [|k l] eqn:E;
      cbn [List.length Nat.ltb Nat.leb]; [discriminate|].
    intros [= <-]. split; [reflexivity|]. unfold missing in E.
    exists k.
    assert (Hk : In k (filter (fun key => negb (present env key))
                              requiredEnvVars)) by (rewrite E; now left).
    apply filter_In in Hk. destruct Hk as [Hin Hp].
    split; [exact Hin|]. now apply negb_true_iff.
Qed.

(** After [validateEnv] has returned, every variable that was set to a
    non-empty value has that value still; an optional variable that was
    unset or empty has its default; no other variable is touched; and
    every required and every optional variable is present. *)
Theorem validateEnv_defaults (env env' : Env) :
  validateEnv env = inr env' ->
  (forall key, present env key = true -> lookup env' key = lookup env key)
  /\ (forall key d, In (key, d) optionalEnvVars -> present env key = false ->
                    lookup env' key = Some d)
  /\ (forall key, ~ In key (map fst optionalEnvVars) ->
                  lookup env' key = lookup env key)
  /\ (forall key, In key requiredEnvVars
                  \/ In key (map fst optionalEnvVars) ->
                  present env' key = true).
Proof.
  intros H. pose proof (validateEnv_present env env' H) as Hp.
  destruct (validateEnv_inr env env' H) as [Hmiss ->].
  split; [intros key; apply defaults_keep|].
  split; [intros key d; apply defaults_fill; apply optional_keys_NoDup|].
  split; [intros key; apply defaults_other|].
  exact Hp.
Qed.

(** [validateEnv] is idempotent: run on the environment it has left
    behind it returns again and leaves that same environment. *)
Theorem validateEnv_idempotent (env env' : Env) :
  validateEnv env = inr env' -> validateEnv env' = inr env'.
Proof.
  intros H. pose proof (validateEnv_present env env' H) as Hpresent.
  unfold validateEnv.
  rewrite (proj2 (missing_nil env')) by (intros key Hk; apply Hpresent; now left).
  cbn [List.length Nat.ltb Nat.leb]. f_equal. apply defaults_nothing.
  intros key Hk. apply Hpresent. now right.
Qed.

(** After [validateEnv] has returned, [getEnvVar] throws for no required
    and no optional variable, whatever default it is given: it returns the
    value the environment holds, which is not empty. *)
Theorem getEnvVar_after_validateEnv (env env' : Env) (key : string)
    (d : option string) :
  validateEnv env = inr env' ->
  In key requiredEnvVars \/ In key (map fst optionalEnvVars) ->
  exists v, getEnvVar env' key d = returned v
            /\ lookup env' key = Some v /\ v <> "".
Proof.
  intros H Hkey. pose proof (validateEnv_present env env' H key Hkey) as Hp.
  unfold present in Hp. unfold getEnvVar.
  destruct (lookup env' key) as [v|]; [|discriminate].
  rewrite Hp. exists v. split; [reflexivity|]. split; [reflexivity|].
  intros ->. discriminate.
Qed.


(** No two of [isProduction], [isDevelopment] and [isTest] hold at
    once. *)
Theorem modes_exclusive (env : Env) :
  isProduction env && isDevelopment env = false
  /\ isProduction env && isTest env = false
  /\ isDevelopment env && isTest env = false.
Proof.
  unfold isProduction, isDevelopment, isTest, present.
  destruct (lookup env "NODE_ENV") as [v|]; [|now repeat split].
  destruct (String.eqb_spec v "production") as [->|_];
    [now repeat split|].
  destruct (String.eqb_spec v "test") as [->|_]; [now repeat split|].
  cbn [andb]. repeat split. apply andb_false_r.
Qed.

(** [validateEnv] does not change the mode: the three tests answer after
    it as before it, and where [NODE_ENV] was unset or empty the mode is
    development. *)
Theorem validateEnv_keeps_mode (env env' : Env) :
  validateEnv env = inr env' ->
  isProduction env' = isProduction env
  /\ isDevelopment env' = isDevelopment env
  /\ isTest env' = isTest env
  /\ (present env "NODE_ENV" = false -> isDevelopment env' = true).
Proof.
  intros H. destruct (validateEnv_inr env env' H) as [_ ->].
  destruct (present env "NODE_ENV") eqn:Ep.
  - pose proof (defaults_keep optionalEnvVars env "NODE_ENV" Ep) as Hl.
    unfold isProduction, isDevelopment, isTest, present. rewrite Hl.
    split; [reflexivity|]. split; [reflexivity|]. split; [reflexivity|].
    intros Hf. discriminate Hf.
  - assert (Hl : lookup (fold_left set_default optionalEnvVars env) "NODE_ENV"
                 = Some "development").
    { apply defaults_fill; [apply optional_keys_NoDup|cbn; tauto|exact Ep]. }
    unfold isProduction, isDevelopment, isTest, present. rewrite Hl.
    unfold present in Ep.
    destruct (lookup env "NODE_ENV") as [v|]; [|now repeat split].
    apply negb_false_iff in Ep. apply String.eqb_eq in Ep. subst v.
    now repeat split.
Qed.

Lemma validateEnv_sample :
  validateEnv [ ("JWT_SECRET", "s3cret"); ("DATABASE_URL", "postgres://db");
                ("EMAIL_USER", "mailer"); ("EMAIL_PASSWORD", "pw");
                ("PORT", "") ]
  = inr (fold_left set_default optionalEnvVars
           [ ("JWT_SECRET", "s3cret"); ("DATABASE_URL", "postgres://db");
             ("EMAIL_USER", "mailer"); ("EMAIL_PASSWORD", "pw");
             ("PORT", "") ]).
Proof. reflexivity. Qed.

Lemma validateEnv_throws_iff_witness :
  validateEnv [ ("JWT_SECRET", "s3cret"); ("EMAIL_USER", "") ]
  = inl "Missing required environment variables: DATABASE_URL, EMAIL_USER, EMAIL_PASSWORD".
Proof.
  destruct (validateEnv [ ("JWT_SECRET", "s3cret"); ("EMAIL_USER", "") ])
    as [message|env'] eqn:E; [|discriminate E].
  destruct (validateEnv_throws_iff
              [ ("JWT_SECRET", "s3cret"); ("EMAIL_USER", "") ]) as [_ H].
  destruct (H message E) as [-> _]. reflexivity.
Defined.

Lemma validateEnv_defaults_witness :
  exists env',
    lookup env' "PORT" = Some "8000" /\ lookup env' "JWT_SECRET" = Some "s3cret".
Proof.
  eexists. 
  destruct (validateEnv_defaults _ _ validateEnv_sample) as (Hkeep & Hfill & _).
  split.
  - apply (Hfill "PORT" "8000"); [cbn; tauto|reflexivity].
  - rewrite (Hkeep "JWT_SECRET"); reflexivity.
Defined.

Lemma validateEnv_idempotent_witness :
  validateEnv
    (fold_left set_default optionalEnvVars
       [ ("JWT_SECRET", "s3cret"); ("DATABASE_URL", "postgres://db");
         ("EMAIL_USER", "mailer"); ("EMAIL_PASSWORD", "pw"); ("PORT", "") ])
  = inr (fold_left set_default optionalEnvVars
           [ ("JWT_SECRET", "s3cret"); ("DATABASE_URL", "postgres://db");
             ("EMAIL_USER", "mailer"); ("EMAIL_PASSWORD", "pw");
             ("PORT", "") ]).
Proof. apply (validateEnv_idempotent _ _ validateEnv_sample). Defined.

Lemma getEnvVar_after_validateEnv_witness :
  exists v,
    getEnvVar
      (fold_left set_default optionalEnvVars
         [ ("JWT_SECRET", "s3cret"); ("DATABASE_URL", "postgres://db");
           ("EMAIL_USER", "mailer"); ("EMAIL_PASSWORD", "pw"); ("PORT", "") ])
      "PORT" None
    = returned v.
Proof.
  destruct (getEnvVar_after_validateEnv _ _ "PORT" None validateEnv_sample)
    as (v & H & _); [right; cbn; tauto|].
  exists v. exact H.
Defined.


Lemma validateEnv_keeps_mode_witness :
  isDevelopment
    (fold_left set_default optionalEnvVars
       [ ("JWT_SECRET", "s3cret"); ("DATABASE_URL", "postgres://db");
         ("EMAIL_USER", "mailer"); ("EMAIL_PASSWORD", "pw"); ("PORT", "") ])
  = true.
Proof.
  apply (validateEnv_keeps_mode _ _ validateEnv_sample). reflexivity.
Defined.

End EnvConfigFacts.

(** ** The verification-code table: what it accepts *)

Module VerificationCodesAccepts.
Import VerificationCodes.

(** A string of digits is a text of as many characters as bytes. *)
Lemma digits_fit (n : nat) (s : string) :
  all_digits s = true -> (String.length s <= n)%nat -> fits n s = true.
Proof.
  intros Hd Hl. unfold fits.
  assert (H : has_nul s = false /\ char_length s = String.length s).
  { induction s as [|c s IH]; [now split|].
    cbn [all_digits] in Hd. apply andb_true_iff in Hd.
    destruct Hd as [Hc Hs]. destruct (IH Hs) as [IH1 IH2];
      [cbn [String.length] in Hl; lia|].
    unfold is_digit in Hc. apply andb_true_iff in Hc.
    destruct Hc as [H48 H57]. apply Nat.leb_le in H48, H57.
    cbn [has_nul char_length String.length]. rewrite IH1, IH2. split.
    - destruct (Ascii.eqb_spec c Ascii.zero) as [->|_]; [|reflexivity].
      cbn in H48. lia.
    - unfold is_continuation.
      destruct (Nat.leb_spec 128 (nat_of_ascii c)); [lia|reflexivity]. }
  destruct H as [-> ->]. cbn [negb andb]. now apply Nat.leb_le.
Qed.

(** The table accepts every six-digit code, leading zeros included, of
    type 'email' or 'phone', for an existing account and under a new
    key: the record is appended as given, with no attempt counted and not
    used. *)
Theorem verification_codes_accept_six_digits
    (nextval now : Z) (accounts : list Account) (aid : Z)
    (type secret : string) (expires : Z) (rows : list verification_code) :
  type = "email" \/ type = "phone" ->
  String.length secret = 6%nat -> all_digits secret = true ->
  (forall r, In r rows -> code_id r <> nextval) ->
  (exists a, In a accounts /\ Account_ID a = aid) ->
  INSERT_verification_code nextval now accounts aid type secret expires rows
  = Some (rows ++ [ {| code_id := nextval;
                       account_id := aid;
                       code_type := type;
                       code := secret;
                       expires_at := expires;
                       attempts := Some 0;
                       created_at := Some now;
                       used_at := None |} ])%list.
Proof.
  intros Htype Hlen Hdig Hfresh (a & Ha & Haid).
  unfold INSERT_verification_code.
  assert (Ht : varchar 10 type = Some type /\ code_type_check type = true)
    by (destruct Htype as [-> | ->]; now split).
  destruct Ht as [-> ->].
  rewrite (AdminRestFacts.varchar_fits 6 secret)
    by (apply digits_fit; [exact Hdig|lia]).
  assert (Hv : valid_code secret = true).
  { unfold valid_code. rewrite Hlen, Hdig.
    destruct secret; [discriminate Hlen|reflexivity]. }
  rewrite Hv. cbn [negb orb].
  assert (He : existsb (fun r => code_id r =? nextval) rows = false).
  { destruct (existsb _ rows) eqn:E; [|reflexivity].
    apply existsb_exists in E. destruct E as (r & Hr & Hk).
    apply Z.eqb_eq in Hk. now destruct (Hfresh r Hr). }
  rewrite He.
  assert (Hf : existsb (fun a => Account_ID a =? aid) accounts = true).
  { apply existsb_exists. exists a. split; [exact Ha|now apply Z.eqb_eq]. }
  rewrite Hf. reflexivity.
Qed.

Lemma verification_codes_accept_six_digits_witness :
  INSERT_verification_code 1 2000 [Sample.alice] 1 "email" "000042" 2600 []
  <> None.
Proof.
  rewrite (verification_codes_accept_six_digits 1 2000 [Sample.alice] 1
             "email" "000042" 2600 []).
  - discriminate.
  - now left.
  - reflexivity.
  - reflexivity.
  - intros r [].
  - exists Sample.alice. split; [now left|reflexivity].
Defined.

End VerificationCodesAccepts.

(** ** The admin controller: the password reset *)

Module AdminResetFacts.
Import AdminController.

Section Handlers.

Variable int4in : string -> option Z.
Variable generateSaltedHash : Value -> option (string * string).
Variable nextval : Z.


End Handlers.


End AdminResetFacts.
